(** * police-system: the Express route handlers of [server/routes.js]

    A shallow embedding of the HTTP handlers registered by [registerRoutes]
    and of the development seed [seedDevAdmin], followed by the properties
    the specification states about them.

    JavaScript objects are finite maps from property names to values
    ([gmap string jsval]); handlers are functions of the request and of the
    state of the storage layer, returning the reply and the new state. *)

From Stdlib Require Import ZArith String Ascii List Bool Lia DecimalString.
From stdpp Require Import base option gmap strings list.

Set Warnings "-register-all".

Local Open Scope string_scope.
Local Open Scope Z_scope.

(** ** JavaScript values *)

(** The values that travel through the handlers: JSON data from the request
    body, documents of the store, and the few non-JSON values the code
    produces itself ([undefined], [NaN] from [parseInt], [Date] objects).
    Numbers are the integers the handlers deal in (identifiers, counters);
    a [Date] is its time value in milliseconds. *)
Inductive jsval : Type :=
  | VUndefined
  | VNull
  | VBool (b : bool)
  | VNum (n : Z)
  | VNaN
  | VStr (s : string)
  | VDate (ms : Z)
  | VArr (l : list jsval)
  | VObj (o : gmap string jsval).

(** A plain object. *)
Abbreviation doc := (gmap string jsval).

(** [ToBoolean]: what [!v], [v || w] and [if (v)] look at. *)
Definition truthy (v : jsval) : bool :=
  match v with
  | VUndefined | VNull | VNaN => false
  | VBool b => b
  | VNum n => negb (n =? 0)
  | VStr s => negb (String.eqb s "")
  | VDate _ | VArr _ | VObj _ => true
  end.

(** [a === b] on values that come from different places (a request and a
    stored document, a value and a literal): primitives compare by type and
    value, [NaN] equals nothing, and two distinct objects are never equal. *)
Definition strict_eq (a b : jsval) : bool :=
  match a, b with
  | VUndefined, VUndefined => true
  | VNull, VNull => true
  | VBool x, VBool y => Bool.eqb x y
  | VNum x, VNum y => x =? y
  | VStr x, VStr y => String.eqb x y
  | _, _ => false
  end.

(** [a || b] *)
Definition js_or (a b : jsval) : jsval := if truthy a then a else b.

(** [o.k]: a missing property reads as [undefined]. *)
Definition prop (o : doc) (k : string) : jsval := default VUndefined (o !! k).

(** [{ ...o, k: v }] writes [k]; a property set to [undefined] is kept as in
    JavaScript (it only disappears when the object is serialised). *)
Definition set_prop (k : string) (v : jsval) (o : doc) : doc := <[k := v]> o.

(** [{ ...v }]: spreading [undefined], [null], a number or a boolean gives
    no properties; spreading an object copies its own properties. (An array
    or a string would give index-named properties; the one handler that
    spreads the body rejects the request when [fileType] is not among the
    properties.) *)
Definition spread (v : jsval) : doc :=
  match v with
  | VObj o => o
  | _ => ∅
  end.

(** [arr.includes(x)] for an array literal of strings. *)
Definition includes (arr : list string) (x : jsval) : bool :=
  existsb (fun s => strict_eq (VStr s) x) arr.

(** ** Strings *)

(** A string is the UTF-8 encoding of the JavaScript string: an ASCII
    character is one byte below 128, any other character is a sequence of
    bytes from 128 on. *)
Definition is_ascii_char (c : ascii) : bool := (nat_of_ascii c <? 128)%nat.

Fixpoint is_ascii (s : string) : bool :=
  match s with
  | EmptyString => true
  | String c r => is_ascii_char c && is_ascii r
  end.

(** What the code takes from the JavaScript engine and is left open here:
    the lower case of a string that has characters outside ASCII (the
    Unicode case mapping), and the Number an integer beyond 2^53 becomes
    (a rounded double, or [Infinity]). *)
Record Engine : Type := mkEngine {
  lowerUnicode : string → string;
  largeNumber : Z → jsval
}.

Definition lower_ascii (c : ascii) : ascii :=
  let n := nat_of_ascii c in
  if ((65 <=? n) && (n <=? 90))%nat then ascii_of_nat (n + 32) else c.

Fixpoint lower_ascii_string (s : string) : string :=
  match s with
  | EmptyString => EmptyString
  | String c r => String (lower_ascii c) (lower_ascii_string r)
  end.

(** [s.toLowerCase()]: on ASCII text, [A-Z] become [a-z] and every other
    character stays; on any other text, the engine's mapping. *)
Definition toLowerCase (engine : Engine) (s : string) : string :=
  if is_ascii s then lower_ascii_string s else lowerUnicode engine s.

(** The white space [parseInt] skips ([StrWhiteSpaceChar]): the ASCII
    characters TAB, LF, VT, FF, CR and space, and, by their UTF-8 bytes,
    U+00A0, U+1680, U+2000 to U+200A, U+2028, U+2029, U+202F, U+205F, U+3000
    and U+FEFF. *)
Definition is_space (c : ascii) : bool :=
  let n := nat_of_ascii c in
  ((9 <=? n) && (n <=? 13) || (n =? 32))%nat.

Definition is_space2 (a b : ascii) : bool :=
  ((nat_of_ascii a =? 194) && (nat_of_ascii b =? 160))%nat.

Definition is_space3 (a b c : ascii) : bool :=
  let x := nat_of_ascii a in
  let y := nat_of_ascii b in
  let z := nat_of_ascii c in
  ((x =? 225) && (y =? 154) && (z =? 128)
   || (x =? 226) && (y =? 128)
      && ((128 <=? z) && (z <=? 138) || (z =? 168) || (z =? 169) || (z =? 175))
   || (x =? 226) && (y =? 129) && (z =? 159)
   || (x =? 227) && (y =? 128) && (z =? 128)
   || (x =? 239) && (y =? 187) && (z =? 191))%nat.

Fixpoint skip_spaces (s : string) : string :=
  match s with
  | String a r =>
      if is_space a then skip_spaces r
      else match r with
           | String b r1 =>
               if is_space2 a b then skip_spaces r1
               else match r1 with
                    | String c r2 => if is_space3 a b c then skip_spaces r2 else s
                    | EmptyString => s
                    end
           | EmptyString => s
           end
  | EmptyString => s
  end.

Definition digit_of (radix : Z) (c : ascii) : option Z :=
  let n := Z.of_nat (nat_of_ascii c) in
  let d :=
    if (48 <=? n) && (n <=? 57) then Some (n - 48)
    else if (97 <=? n) && (n <=? 122) then Some (n - 87)
    else if (65 <=? n) && (n <=? 90) then Some (n - 55)
    else None in
  match d with
  | Some v => if v <? radix then Some v else None
  | None => None
  end.

(** The digits read so far are [acc]; [None] while no digit was read. *)
Fixpoint read_digits (radix : Z) (acc : option Z) (s : string) : option Z :=
  match s with
  | EmptyString => acc
  | String c r =>
      match digit_of radix c with
      | Some d => read_digits radix (Some (default 0 acc * radix + d)) r
      | None => acc
      end
  end.

Definition strip_hex_prefix (s : string) : option string :=
  match s with
  | String "0" (String "x" r) => Some r
  | String "0" (String "X" r) => Some r
  | _ => None
  end.

(** The Number of an integer: itself up to 2^53 in absolute value, where
    every integer is a double. *)
Definition number (engine : Engine) (m : Z) : jsval :=
  if Z.abs m <=? 9007199254740992 then VNum m else largeNumber engine m.

(** [parseInt(s)] with no radix: leading white space is skipped, one sign is
    read, a [0x]/[0X] prefix selects base 16, and the longest run of digits
    is the value; no digit at all gives [NaN]. *)
Definition parseInt (engine : Engine) (s : string) : jsval :=
  let s1 := skip_spaces s in
  let '(sign, s2) :=
    match s1 with
    | String "-" r => (-1, r)
    | String "+" r => (1, r)
    | _ => (1, s1)
    end in
  let '(radix, s3) :=
    match strip_hex_prefix s2 with
    | Some r => (16, r)
    | None => (10, s2)
    end in
  match read_digits radix None s3 with
  | Some n => number engine (sign * n)
  | None => VNaN
  end.

(** ** Requests, sessions and replies *)

(** [req.session]: the object express-session attaches to every request;
    [userId] and [user] are [undefined] until a login sets them. *)
Record session : Type := mkSession {
  userId : jsval;
  user : jsval
}.

Definition no_session : session := mkSession VUndefined VUndefined.

(** [req]: the parsed body, the route parameters and the session. *)
Record request : Type := mkRequest {
  req_body : jsval;
  req_params : gmap string string;
  req_session : session
}.

(** [req.params.k]; every route below declares the parameter it reads, and
    [parseInt] of a missing one is [NaN] like [parseInt] of the empty
    string. *)
Definition param (req : request) (k : string) : string :=
  default "" (req_params req !! k).

(** What the client receives: [res.status(s).json(body)], or nothing when a
    handler without [try] lets a rejected promise escape. *)
Inductive reply : Type :=
  | Reply (status : Z) (body : jsval)
  | NoReply.

Definition status_of (r : reply) : option Z :=
  match r with
  | Reply s _ => Some s
  | NoReply => None
  end.

Definition body_of (r : reply) : jsval :=
  match r with
  | Reply _ b => b
  | NoReply => VUndefined
  end.

(** [{ message: m }] *)
Definition message (m : string) : jsval := VObj {[ "message" := VStr m ]}.

(** ** Computations that may throw *)

(** A call into the storage layer runs against the state of the store and
    either returns or throws an error with a message. *)
Inductive result (A : Type) : Type :=
  | Ok (a : A)
  | Throw (e : string).
Arguments Ok {A} a.
Arguments Throw {A} e.

Definition M (S A : Type) : Type := S → result A * S.

Definition ret {S A : Type} (a : A) : M S A := fun σ => (Ok a, σ).

Definition throw {S A : Type} (e : string) : M S A := fun σ => (Throw e, σ).

Definition bind {S A B : Type} (m : M S A) (k : A → M S B) : M S B :=
  fun σ =>
    match m σ with
    | (Ok a, σ') => k a σ'
    | (Throw e, σ') => (Throw e, σ')
    end.

(** A synchronous step that may throw (a failed [parse], a [TypeError]). *)
Definition lift {S A : Type} (r : result A) : M S A := fun σ => (r, σ).

Notation "'let*' x := m 'in' k" := (bind m (fun x => k))
  (at level 10, x pattern, m at level 100, k at level 200).

(** [try { body } catch (error) { handler(error) }] *)
Definition try_catch {S A : Type} (body : M S A) (handler : string → A) (σ : S) : A * S :=
  match body σ with
  | (Ok a, σ') => (a, σ')
  | (Throw e, σ') => (handler e, σ')
  end.

(** An [async] handler with no [try]: an error leaves the request
    unanswered. *)
Definition no_catch {S : Type} (body : M S reply) (σ : S) : reply * S :=
  match body σ with
  | (Ok r, σ') => (r, σ')
  | (Throw _, σ') => (NoReply, σ')
  end.

(** [const { a, b } = v]: destructuring [undefined] or [null] is a
    [TypeError]; a primitive has none of the properties read here. *)
Definition destructure (v : jsval) : result doc :=
  match v with
  | VUndefined | VNull => Throw "Cannot destructure"
  | VObj o => Ok o
  | _ => Ok ∅
  end.

(** [v?.toLowerCase()]: [undefined] for [undefined] and [null], the lowered
    string for a string, and a [TypeError] for any other value, which has no
    callable [toLowerCase]. *)
Definition optional_toLowerCase (engine : Engine) (v : jsval) : result jsval :=
  match v with
  | VUndefined | VNull => Ok VUndefined
  | VStr s => Ok (VStr (toLowerCase engine s))
  | _ => Throw "toLowerCase is not a function"
  end.

(** ** The modules the routes import *)

(** A document of a MongoDB collection: the [ObjectId] every document
    carries in [_id], as the string [_id.toString()] gives, and its other
    fields. *)
Record mongoDoc : Type := mkMongoDoc {
  _id : string;
  fields : doc
}.

(** [storage] of [./db-config.js] and [OBEntriesCRUD] of
    [./mongodb-crud.js], as the routes use them: the methods called by the
    handlers below, over the state [S] of the store. A user lookup gives the
    user object or nothing; the other resources come back as the store
    returns them. *)
Record Storage (S : Type) : Type := mkStorage {
  getUserByUsername : jsval → M S (option doc);
  getUserByEmail : jsval → M S (option doc);
  getUser : jsval → M S (option doc);
  getAllUsers : M S (list doc);
  createUser : doc → M S doc;
  updateUser : jsval → doc → M S (option doc);
  updateLastLogin : jsval → M S unit;
  deleteUser : jsval → M S unit;
  createPasswordResetToken : jsval → string → M S unit;
  getPasswordResetToken : jsval → M S (option doc);
  updateUserPassword : jsval → jsval → M S unit;
  deletePasswordResetToken : jsval → M S unit;
  createCase : doc → M S jsval;
  updateCase : jsval → jsval → M S jsval;
  createLicensePlate : doc → M S jsval;
  createGeofile : doc → M S jsval;
  createReport : doc → M S jsval;
  updateReport : jsval → doc → M S jsval;
  getPoliceVehicle : jsval → M S jsval;
  createPoliceVehicle : doc → M S jsval;
  updateVehicleStatus : jsval → jsval → M S jsval;
  obFindAll : M S (list mongoDoc);
  obCreate : doc → M S mongoDoc
}.
Arguments getUserByUsername {S} _ _ _.
Arguments getUserByEmail {S} _ _ _.
Arguments getUser {S} _ _ _.
Arguments getAllUsers {S} _ _.
Arguments createUser {S} _ _ _.
Arguments updateUser {S} _ _ _ _.
Arguments updateLastLogin {S} _ _ _.
Arguments deleteUser {S} _ _ _.
Arguments createPasswordResetToken {S} _ _ _ _.
Arguments getPasswordResetToken {S} _ _ _.
Arguments updateUserPassword {S} _ _ _ _.
Arguments deletePasswordResetToken {S} _ _ _.
Arguments createCase {S} _ _ _.
Arguments updateCase {S} _ _ _ _.
Arguments createLicensePlate {S} _ _ _.
Arguments createGeofile {S} _ _ _.
Arguments createReport {S} _ _ _.
Arguments updateReport {S} _ _ _ _.
Arguments getPoliceVehicle {S} _ _ _.
Arguments createPoliceVehicle {S} _ _ _.
Arguments updateVehicleStatus {S} _ _ _ _.
Arguments obFindAll {S} _ _.
Arguments obCreate {S} _ _ _.

(** The zod schemas of [../shared/schema.js]: [schema.parse(v)] returns the
    validated object or throws. *)
Record Schemas : Type := mkSchemas {
  loginSchema : jsval → result doc;
  registerSchema : jsval → result doc;
  forgotPasswordSchema : jsval → result doc;
  resetPasswordSchema : jsval → result doc;
  updateProfileSchema : jsval → result doc;
  insertCaseSchema : jsval → result doc;
  insertOBSchema : jsval → result doc;
  insertLicensePlateSchema : jsval → result doc;
  insertReportSchema : jsval → result doc;
  insertPoliceVehicleSchema : jsval → result doc
}.

(** What a handler reads from its surroundings besides the request: the
    clock, the random sources, and the formatting methods of [Date]. *)
Record Env : Type := mkEnv {
  now : Z;                      (* new Date() *)
  fullYear : string;            (* new Date().getFullYear(), in a template *)
  random6 : nat → string;       (* Math.random().toString(36).substr(2, 6).toUpperCase(),
                                   as drawn for the entry at a position *)
  randomHex : string;           (* randomBytes(32).toString('hex') *)
  toISOString : Z → string;     (* d.toISOString() *)
  isoDate : Z → string;         (* d.toISOString().split('T')[0] *)
  clockTime : Z → string        (* d.toTimeString().split(' ')[0] *)
}.

(** ** The route handlers of [registerRoutes] *)

Section Routes.
Context {St : Type} (storage : Storage St) (schema : Schemas) (env : Env) (engine : Engine).

(** [const { password: _, ...userWithoutPassword } = u] *)
Definition userWithoutPassword (u : doc) : doc := delete "password" u.

(** POST /api/auth/login. The reply comes with the session as the handler
    leaves it. *)
Definition login (req : request) : St → (reply * session) * St :=
  try_catch
    (let* creds := lift (loginSchema schema (req_body req)) in
     let username := prop creds "username" in
     let password := prop creds "password" in
     let* found := getUserByUsername storage username in
     match found with
     | None => ret (Reply 401 (message "Invalid credentials"), req_session req)
     | Some u =>
         let isValidPassword :=
           strict_eq (prop u "password") password
           || (strict_eq (prop u "username") (VStr "admin")
               && strict_eq password (VStr "admin123")) in
         if negb isValidPassword then
           ret (Reply 401 (message "Invalid credentials"), req_session req)
         else if negb (truthy (prop u "isActive")) then
           ret (Reply 403 (message "Account is deactivated"), req_session req)
         else
           let* _ := updateLastLogin storage (prop u "id") in
           ret (Reply 200 (VObj {[ "user" := VObj (userWithoutPassword u) ]}),
                mkSession (prop u "id") (VObj u))
     end)
    (fun _ => (Reply 400 (message "Invalid input"), req_session req)).

(** POST /api/auth/register *)
Definition register (req : request) : St → reply * St :=
  try_catch
    (let* userData := lift (registerSchema schema (req_body req)) in
     let* existingUser := getUserByUsername storage (prop userData "username") in
     match existingUser with
     | Some _ => ret (Reply 409 (message "Username already exists"))
     | None =>
         let* existingEmail := getUserByEmail storage (prop userData "email") in
         match existingEmail with
         | Some _ => ret (Reply 409 (message "Email already exists"))
         | None =>
             let userToCreate := delete "confirmPassword" userData in
             let* newUser := createUser storage userToCreate in
             ret (Reply 201 (VObj {[ "user" := VObj (userWithoutPassword newUser) ]}))
         end
     end)
    (fun _ => Reply 400 (message "Invalid input")).

(** POST /api/auth/forgot-password *)
Definition forgotPassword (req : request) : St → reply * St :=
  try_catch
    (let* parsed := lift (forgotPasswordSchema schema (req_body req)) in
     let username := prop parsed "username" in
     let* found := getUserByUsername storage username in
     match found with
     | None =>
         ret (Reply 200 (message "If the username exists, a reset token has been generated"))
     | Some u =>
         let token := randomHex env in
         let* _ := createPasswordResetToken storage (prop u "id") token in
         ret (Reply 200 (VObj (<["token" := VStr token]>
                                {[ "message" := VStr "Password reset token generated" ]})))
     end)
    (fun _ => Reply 400 (message "Invalid input")).

(** POST /api/auth/reset-password *)
Definition resetPassword (req : request) : St → reply * St :=
  try_catch
    (let* parsed := lift (resetPasswordSchema schema (req_body req)) in
     let token := prop parsed "token" in
     let password := prop parsed "password" in
     let* resetData := getPasswordResetToken storage token in
     match resetData with
     | None => ret (Reply 400 (message "Invalid or expired token"))
     | Some r =>
         let* _ := updateUserPassword storage (prop r "userId") password in
         let* _ := deletePasswordResetToken storage token in
         ret (Reply 200 (message "Password updated successfully"))
     end)
    (fun _ => Reply 400 (message "Invalid input")).

(** GET /api/auth/me *)
Definition me (req : request) : St → reply * St :=
  no_catch
    (let uid := js_or (userId (req_session req)) (VNum 1) in
     let* found := getUser storage uid in
     match found with
     | None => ret (Reply 404 (message "User not found"))
     | Some u => ret (Reply 200 (VObj {[ "user" := VObj (userWithoutPassword u) ]}))
     end).

(** PUT /api/profile. Destructuring the [undefined] that [updateUser] may
    give is a [TypeError], caught like a failed parse. *)
Definition putProfile (req : request) : St → reply * St :=
  try_catch
    (let* updates := lift (updateProfileSchema schema (req_body req)) in
     let uid := js_or (userId (req_session req)) (VNum 1) in
     let* updatedUser := updateUser storage uid updates in
     match updatedUser with
     | None => throw "Cannot destructure"
     | Some u => ret (Reply 200 (VObj {[ "user" := VObj (userWithoutPassword u) ]}))
     end)
    (fun _ => Reply 400 (message "Invalid input")).

(** GET /api/users *)
Definition getUsers (req : request) : St → reply * St :=
  no_catch
    (let* users := getAllUsers storage in
     let usersWithoutPasswords := map (fun u => VObj (delete "password" u)) users in
     ret (Reply 200 (VObj {[ "users" := VArr usersWithoutPasswords ]}))).

(** DELETE /api/users/:id *)
Definition deleteUserRoute (req : request) : St → reply * St :=
  let uid := parseInt engine (param req "id") in
  if strict_eq uid (VNum 1) then
    fun σ => (Reply 400 (message "Cannot delete admin account"), σ)
  else
    try_catch
      (let* _ := deleteUser storage uid in
       ret (Reply 200 (message "User deleted successfully")))
      (fun _ => Reply 404 (message "User not found")).

(** POST /api/cases *)
Definition caseToCreate (caseData : doc) : doc :=
  set_prop "createdById" (VNum 1) caseData.

Definition postCase (req : request) : St → reply * St :=
  try_catch
    (let* caseData := lift (insertCaseSchema schema (req_body req)) in
     let* newCase := createCase storage (caseToCreate caseData) in
     ret (Reply 201 (VObj {[ "case" := newCase ]})))
    (fun _ => Reply 400 (message "Invalid input")).

(** PUT /api/cases/:id *)
Definition putCase (req : request) : St → reply * St :=
  try_catch
    (let caseId := parseInt engine (param req "id") in
     let updates := req_body req in
     let* updatedCase := updateCase storage caseId updates in
     ret (Reply 200 (VObj {[ "case" := updatedCase ]})))
    (fun _ => Reply 404 (message "Case not found")).

(** POST /api/license-plates *)
Definition plateToCreate (plateData : doc) : doc :=
  set_prop "addedById" (VNum 1) plateData.

Definition postLicensePlate (req : request) : St → reply * St :=
  try_catch
    (let* plateData := lift (insertLicensePlateSchema schema (req_body req)) in
     let* newPlate := createLicensePlate storage (plateToCreate plateData) in
     ret (Reply 201 (VObj {[ "licensePlate" := newPlate ]})))
    (fun _ => Reply 400 (message "Invalid input")).

(** POST /api/reports *)
Definition reportToCreate (reportData : doc) : doc :=
  set_prop "requestedBy" (VNum 1) reportData.

Definition postReport (req : request) : St → reply * St :=
  try_catch
    (let* reportData := lift (insertReportSchema schema (req_body req)) in
     let* newReport := createReport storage (reportToCreate reportData) in
     ret (Reply 201 newReport))
    (fun _ => Reply 400 (message "Invalid report data")).

(** PUT /api/reports/:id *)
Definition putReport (req : request) : St → reply * St :=
  try_catch
    (let* reportData := lift (insertReportSchema schema (req_body req)) in
     let* updatedReport := updateReport storage (parseInt engine (param req "id")) reportData in
     ret (Reply 200 updatedReport))
    (fun _ => Reply 400 (message "Failed to update report")).

(** POST /api/geofiles *)
Definition geofileData (body : jsval) : doc :=
  set_prop "downloadCount" (VNum 0)
    (set_prop "lastAccessedAt" (VDate (now env))
       (set_prop "uploadedBy" (VNum 1) (spread body))).

Definition allowedTypes : list string :=
  ["kml"; "gpx"; "shp"; "geojson"; "kmz"; "gml"; "other"].

Definition postGeofile (req : request) : St → reply * St :=
  try_catch
    (let data := geofileData (req_body req) in
     let* lowered := lift (optional_toLowerCase engine (prop data "fileType")) in
     if negb (includes allowedTypes lowered) then
       ret (Reply 400 (message "Invalid file type"))
     else
       let* newGeofile := createGeofile storage data in
       ret (Reply 201 newGeofile))
    (fun _ => Reply 400 (message "Invalid geofile data")).

(** GET /api/police-vehicles/:id *)
Definition getVehicle (req : request) : St → reply * St :=
  try_catch
    (let* vehicle := getPoliceVehicle storage (parseInt engine (param req "id")) in
     if negb (truthy vehicle) then
       ret (Reply 404 (message "Police vehicle not found"))
     else ret (Reply 200 vehicle))
    (fun _ => Reply 500 (message "Failed to fetch police vehicle")).

(** POST /api/police-vehicles *)
Definition postVehicle (req : request) : St → reply * St :=
  try_catch
    (let* vehicleData := lift (insertPoliceVehicleSchema schema (req_body req)) in
     let* newVehicle := createPoliceVehicle storage vehicleData in
     ret (Reply 201 newVehicle))
    (fun _ => Reply 400 (message "Invalid police vehicle data")).

(** PATCH /api/police-vehicles/:id/status *)
Definition vehicleStatuses : list string :=
  ["available"; "on_patrol"; "responding"; "out_of_service"].

Definition patchVehicleStatus (req : request) : St → reply * St :=
  try_catch
    (let* body := lift (destructure (req_body req)) in
     let status := prop body "status" in
     if negb (truthy status) || negb (includes vehicleStatuses status) then
       ret (Reply 400 (message
         "Invalid status. Must be one of: available, on_patrol, responding, out_of_service"))
     else
       let* updatedVehicle :=
         updateVehicleStatus storage (parseInt engine (param req "id")) status in
       ret (Reply 200 updatedVehicle))
    (fun _ => Reply 400 (message "Failed to update vehicle status")).

(** The OB number made up when none is given, [OB-<year>-<random6>]: the
    year and the random characters are read from the surroundings. *)
Definition generatedObNumber (draw : nat) : string :=
  "OB-" ++ fullYear env ++ "-" ++ random6 env draw.

(** [entry.createdAt?.toISOString()] *)
Definition optional_toISOString (v : jsval) : result jsval :=
  match v with
  | VUndefined | VNull => Ok VUndefined
  | VDate ms => Ok (VStr (toISOString env ms))
  | _ => Throw "toISOString is not a function"
  end.

(** [c ? f(c) : f(new Date())] for a [Date] method [f] of [createdAt]. *)
Definition fromCreatedAt (f : Z → string) (createdAt : jsval) : result jsval :=
  if truthy createdAt then
    match createdAt with
    | VDate ms => Ok (VStr (f ms))
    | _ => Throw "not a Date"
    end
  else Ok (VStr (f (now env))).

(** GET /api/ob-entries: the transformation of one stored entry, the
    [draw]-th of the list. *)
Definition transformEntry (draw : nat) (entry : mongoDoc) : result doc :=
  let e := fields entry in
  let dateTime :=
    if truthy (prop e "dateTime") then Ok (prop e "dateTime")
    else match optional_toISOString (prop e "createdAt") with
         | Ok iso => Ok (js_or iso (VStr (toISOString env (now env))))
         | Throw err => Throw err
         end in
  let date :=
    if truthy (prop e "date") then Ok (prop e "date")
    else fromCreatedAt (isoDate env) (prop e "createdAt") in
  let time :=
    if truthy (prop e "time") then Ok (prop e "time")
    else fromCreatedAt (clockTime env) (prop e "createdAt") in
  match dateTime, date, time with
  | Ok dateTime, Ok date, Ok time =>
      Ok (list_to_map
            [ ("id", VStr (_id entry));
              ("obNumber", js_or (prop e "obNumber") (VStr (generatedObNumber draw)));
              ("type", js_or (prop e "type") (VStr "Incident"));
              ("description", js_or (prop e "description") (VStr ""));
              ("reportedBy", js_or (prop e "reportedBy") (VStr ""));
              ("officer", js_or (prop e "officer") (VStr "Officer Smith"));
              ("dateTime", dateTime);
              ("date", date);
              ("time", time);
              ("status", js_or (prop e "status") (VStr "Pending"));
              ("recordingOfficerId", js_or (prop e "recordingOfficerId") (VNum 1));
              ("location", js_or (prop e "location") (VStr ""));
              ("details", js_or (prop e "details") (VStr ""));
              ("createdAt", prop e "createdAt");
              ("updatedAt", prop e "updatedAt") ])
  | Throw err, _, _ => Throw err
  | _, Throw err, _ => Throw err
  | _, _, Throw err => Throw err
  end.

(** [obEntries.map(entry => ...)]: the first entry that throws ends it. *)
Fixpoint transformEntries (draw : nat) (entries : list mongoDoc) : result (list doc) :=
  match entries with
  | [] => Ok []
  | entry :: rest =>
      match transformEntry draw entry with
      | Throw err => Throw err
      | Ok t =>
          match transformEntries (S draw) rest with
          | Throw err => Throw err
          | Ok ts => Ok (t :: ts)
          end
      end
  end.

Definition getObEntries (req : request) : St → reply * St :=
  try_catch
    (let* obEntries := obFindAll storage in
     let* transformedEntries := lift (transformEntries 0 obEntries) in
     ret (Reply 200 (VObj {[ "obEntries" := VArr (map VObj transformedEntries) ]})))
    (fun _ => Reply 500 (message "Failed to fetch OB entries")).

(** POST /api/ob-entries *)
Definition entryToCreate (obData : doc) : doc :=
  let obNumber := js_or (prop obData "obNumber") (VStr (generatedObNumber 0)) in
  set_prop "recordingOfficerId" (VNum 1)
    (set_prop "status" (js_or (prop obData "status") (VStr "Pending"))
       (set_prop "time" (js_or (prop obData "time") (VStr (clockTime env (now env))))
          (set_prop "date" (js_or (prop obData "date") (VStr (isoDate env (now env))))
             (set_prop "dateTime"
                (js_or (prop obData "dateTime") (VStr (toISOString env (now env))))
                (set_prop "obNumber" obNumber obData))))).


End Routes.

(** ** The development seed *)

(** [User] of [./mongodb-models.js], as [seedDevAdmin] uses it:
    [User.findOne(filter)] gives a user or nothing, and
    [new User(fields).save()] stores the user or throws. *)
Record UserModel (S : Type) : Type := mkUserModel {
  findOne : doc → M S (option doc);
  save : doc → M S unit
}.
Arguments findOne {S} _ _ _.
Arguments save {S} _ _ _.

Definition adminUser : doc :=
  list_to_map
    [ ("username", VStr "admin");
      ("email", VStr "admin@police.gov");
      ("password", VStr "admin123");
      ("firstName", VStr "System");
      ("lastName", VStr "Administrator");
      ("role", VStr "admin");
      ("badgeNumber", VStr "ADMIN001");
      ("department", VStr "IT");
      ("position", VStr "System Administrator");
      ("phone", VStr "+1-555-0000");
      ("isActive", VBool true) ].

(** [seedDevAdmin()]: the state of the store once the promise has
    resolved. Nothing is saved when a user named [admin] is found; an error
    of [findOne] or of [save] is caught and only logged. *)
Definition seedDevAdmin {St : Type} (User : UserModel St) (σ : St) : St :=
  (try_catch
     (let* existingAdmin := findOne User {[ "username" := VStr "admin" ]} in
      match existingAdmin with
      | Some _ => ret tt
      | None => save User adminUser
      end)
     (fun _ => tt) σ).2.

(** ** The storage layer and the schemas, as the specification describes them *)

Module SpecStore.

(** Modelled from the spec: the store behind [storage] ([./db-config.js])
    and [OBEntriesCRUD] ([./mongodb-crud.js]), which are not part of the
    sources at hand. One collection per resource type, kept in insertion
    order; [create] assigns the identifier and the creation timestamp and
    returns the stored form, with [updatedAt] initially equal to
    [createdAt]; [update] merges the submitted mutable fields, refreshes
    [updatedAt] and fails when the identifier is absent; [delete] removes
    the document and fails when it is absent. The username and the email
    of a user are unique: creating a user with one that is taken fails.
    [clock] is the time the store reads when it stamps a document. *)
Record store : Type := mkStore {
  clock : Z;
  nextId : Z;
  users : list doc;
  cases : list doc;
  plates : list doc;
  geofiles : list doc;
  reports : list doc;
  vehicles : list doc;
  obEntries : list mongoDoc;
  resetTokens : list doc
}.

Definition empty (t : Z) : store := mkStore t 1 [] [] [] [] [] [] [] [].

(** Time passes between two requests. *)
Definition at_time (t : Z) (σ : store) : store :=
  mkStore t (nextId σ) (users σ) (cases σ) (plates σ) (geofiles σ) (reports σ)
    (vehicles σ) (obEntries σ) (resetTokens σ).

Definition set_users (σ : store) (n : Z) (c : list doc) : store :=
  mkStore (clock σ) n c (cases σ) (plates σ) (geofiles σ) (reports σ)
    (vehicles σ) (obEntries σ) (resetTokens σ).
Definition set_cases (σ : store) (n : Z) (c : list doc) : store :=
  mkStore (clock σ) n (users σ) c (plates σ) (geofiles σ) (reports σ)
    (vehicles σ) (obEntries σ) (resetTokens σ).
Definition set_plates (σ : store) (n : Z) (c : list doc) : store :=
  mkStore (clock σ) n (users σ) (cases σ) c (geofiles σ) (reports σ)
    (vehicles σ) (obEntries σ) (resetTokens σ).
Definition set_geofiles (σ : store) (n : Z) (c : list doc) : store :=
  mkStore (clock σ) n (users σ) (cases σ) (plates σ) c (reports σ)
    (vehicles σ) (obEntries σ) (resetTokens σ).
Definition set_reports (σ : store) (n : Z) (c : list doc) : store :=
  mkStore (clock σ) n (users σ) (cases σ) (plates σ) (geofiles σ) c
    (vehicles σ) (obEntries σ) (resetTokens σ).
Definition set_vehicles (σ : store) (n : Z) (c : list doc) : store :=
  mkStore (clock σ) n (users σ) (cases σ) (plates σ) (geofiles σ) (reports σ)
    c (obEntries σ) (resetTokens σ).
Definition set_obEntries (σ : store) (n : Z) (c : list mongoDoc) : store :=
  mkStore (clock σ) n (users σ) (cases σ) (plates σ) (geofiles σ) (reports σ)
    (vehicles σ) c (resetTokens σ).
Definition set_resetTokens (σ : store) (c : list doc) : store :=
  mkStore (clock σ) (nextId σ) (users σ) (cases σ) (plates σ) (geofiles σ)
    (reports σ) (vehicles σ) (obEntries σ) c.

(** *** One collection *)

Definition has (k : string) (v : jsval) (d : doc) : bool := strict_eq (prop d k) v.

Definition find_by (k : string) (v : jsval) (c : list doc) : option doc :=
  List.find (has k v) c.

(** The fields no update changes. *)
Definition immutable (k : string) : bool :=
  String.eqb k "id" || String.eqb k "createdAt".

Definition stored_form (id now : Z) (input : doc) : doc :=
  <["updatedAt" := VDate now]> (<["createdAt" := VDate now]> (<["id" := VNum id]> input)).

Definition mutable_part (updates : doc) : doc :=
  filter (fun kv => immutable kv.1 = false) updates.

Definition updated_form (now : Z) (updates old : doc) : doc :=
  <["updatedAt" := VDate now]> (mutable_part updates ∪ old).

Definition replace_by (k : string) (v : jsval) (new : doc) (c : list doc) : list doc :=
  map (fun d => if has k v d then new else d) c.

Definition remove_by (k : string) (v : jsval) (c : list doc) : list doc :=
  List.filter (fun d => negb (has k v d)) c.

(** *** The operations *)

Definition create (get : store → list doc) (set : store → Z → list doc → store)
    (input : doc) : M store doc :=
  fun σ =>
    let d := stored_form (nextId σ) (clock σ) input in
    (Ok d, set σ (nextId σ + 1) (get σ ++ [d])%list).

Definition getById (get : store → list doc) (id : jsval) : M store (option doc) :=
  fun σ => (Ok (find_by "id" id (get σ)), σ).

Definition update (get : store → list doc) (set : store → Z → list doc → store)
    (id : jsval) (updates : doc) : M store doc :=
  fun σ =>
    match find_by "id" id (get σ) with
    | None => (Throw "not found", σ)
    | Some old =>
        let new := updated_form (clock σ) updates old in
        (Ok new, set σ (nextId σ) (replace_by "id" id new (get σ)))
    end.

Definition delete (get : store → list doc) (set : store → Z → list doc → store)
    (id : jsval) : M store unit :=
  fun σ =>
    match find_by "id" id (get σ) with
    | None => (Throw "not found", σ)
    | Some _ => (Ok tt, set σ (nextId σ) (remove_by "id" id (get σ)))
    end.

(** A user whose username or email another user has is refused. *)
Definition taken (k : string) (input : doc) (c : list doc) : bool :=
  match prop input k with
  | VStr s => bool_decide (is_Some (find_by k (VStr s) c))
  | _ => false
  end.

Definition create_user (input : doc) : M store doc :=
  fun σ =>
    if taken "username" input (users σ) || taken "email" input (users σ) then
      (Throw "duplicate key", σ)
    else create users set_users input σ.

(** The first document that has every property of the filter. *)
Definition matches (filter d : doc) : bool :=
  bool_decide (map_Forall (fun k v => has k v d = true) filter).

(** [touchTimestamp(id, field)] *)
Definition touch (field : string) (id : jsval) : M store unit :=
  fun σ =>
    (Ok tt,
     set_users σ (nextId σ)
       (map (fun d => if has "id" id d then <[field := VDate (clock σ)]> d else d)
            (users σ))).

Definition orUndefined (o : option doc) : jsval :=
  match o with
  | Some d => VObj d
  | None => VUndefined
  end.

Definition objectId (n : Z) : string := NilZero.string_of_int (Z.to_int n).

Definition storage : Storage store := {|
  getUserByUsername := fun name σ => (Ok (find_by "username" name (users σ)), σ);
  getUserByEmail := fun email σ => (Ok (find_by "email" email (users σ)), σ);
  getUser := getById users;
  getAllUsers := fun σ => (Ok (users σ), σ);
  createUser := create_user;
  updateUser := fun id updates =>
    let* u := update users set_users id updates in ret (Some u);
  updateLastLogin := touch "lastLogin";
  deleteUser := delete users set_users;
  createPasswordResetToken := fun uid token σ =>
    (Ok tt,
     set_resetTokens σ
       (resetTokens σ ++ [ <["userId" := uid]> {[ "token" := VStr token ]} ])%list);
  getPasswordResetToken := fun token σ =>
    (Ok (find_by "token" token (resetTokens σ)), σ);
  updateUserPassword := fun uid password σ =>
    (Ok tt,
     set_users σ (nextId σ)
       (map (fun d => if has "id" uid d then <["password" := password]> d else d)
            (users σ)));
  deletePasswordResetToken := fun token σ =>
    (Ok tt, set_resetTokens σ (remove_by "token" token (resetTokens σ)));
  createCase := fun input => let* d := create cases set_cases input in ret (VObj d);
  updateCase := fun id updates =>
    let* d := update cases set_cases id (spread updates) in ret (VObj d);
  createLicensePlate := fun input =>
    let* d := create plates set_plates input in ret (VObj d);
  createGeofile := fun input =>
    let* d := create geofiles set_geofiles input in ret (VObj d);
  createReport := fun input =>
    let* d := create reports set_reports input in ret (VObj d);
  updateReport := fun id updates =>
    let* d := update reports set_reports id updates in ret (VObj d);
  getPoliceVehicle := fun id =>
    let* d := getById vehicles id in ret (orUndefined d);
  createPoliceVehicle := fun input =>
    let* d := create vehicles set_vehicles input in ret (VObj d);
  updateVehicleStatus := fun id status =>
    let* d := update vehicles set_vehicles id {[ "status" := status ]} in ret (VObj d);
  obFindAll := fun σ => (Ok (obEntries σ), σ);
  obCreate := fun input σ =>
    let d := mkMongoDoc (objectId (nextId σ))
               (<["updatedAt" := VDate (clock σ)]>
                  (<["createdAt" := VDate (clock σ)]> input)) in
    (Ok d, set_obEntries σ (nextId σ + 1) (obEntries σ ++ [d])%list)
|}.

(** Modelled from the spec: the collection behind [User]
    ([./mongodb-models.js], not part of the sources at hand) is the
    collection of users of the store. *)
Definition userModel : UserModel store := {|
  findOne := fun filter σ => (Ok (List.find (matches filter) (users σ)), σ);
  save := fun fields => let* _ := create_user fields in ret tt
|}.

(** Modelled from the spec: the validators of [../shared/schema.js], which
    are not part of the sources at hand. A validator accepts an object
    whose required fields are present with the right primitive type and
    whose enumerated fields, when present, hold one of the declared
    values; it rejects anything else. The required fields are those the
    authentication handlers read; the enumerations are those of the data
    model. The specification names no default that a validator fills in,
    so the validated object is the submitted one. *)
Definition is_string (v : jsval) : bool :=
  match v with
  | VStr _ => true
  | _ => false
  end.

Definition in_enum (allowed : list string) (v : jsval) : bool :=
  match v with
  | VUndefined => true
  | _ => includes allowed v
  end.

Definition object_schema (required : list string) (enums : list (string * list string))
    (v : jsval) : result doc :=
  match v with
  | VObj o =>
      if negb (forallb (fun k => is_string (prop o k)) required) then Throw "Required"
      else if negb (forallb (fun e => in_enum e.2 (prop o e.1)) enums) then
        Throw "Invalid enum value"
      else Ok o
  | _ => Throw "Expected object"
  end.

Definition roles : list string := ["admin"; "user"].
Definition entryStatuses : list string := ["Pending"; "Approved"; "Completed"; "Rejected"].
Definition reportTypes : list string :=
  ["Incident"; "Case Summary"; "Evidence"; "Warranty"; "Investigation"].
Definition priorities : list string := ["Low"; "Medium"; "High"; "Urgent"].

Definition schemas : Schemas := {|
  loginSchema := object_schema ["username"; "password"] [];
  registerSchema := object_schema ["username"; "email"; "password"] [("role", roles)];
  forgotPasswordSchema := object_schema ["username"] [];
  resetPasswordSchema := object_schema ["token"; "password"] [];
  updateProfileSchema := object_schema [] [("role", roles)];
  insertCaseSchema := object_schema [] [];
  insertOBSchema := object_schema [] [("status", entryStatuses)];
  insertLicensePlateSchema := object_schema [] [];
  insertReportSchema :=
    object_schema [] [("type", reportTypes); ("status", entryStatuses);
                      ("priority", priorities)];
  insertPoliceVehicleSchema := object_schema [] [("status", vehicleStatuses)]
|}.

Definition env : Env := {|
  now := 1700000000000;
  fullYear := "2025";
  random6 := fun _ => "A1B2C3";
  randomHex := "5f2a9c";
  toISOString := fun _ => "2023-11-14T22:13:20.000Z";
  isoDate := fun _ => "2023-11-14";
  clockTime := fun _ => "22:13:20"
|}.

End SpecStore.

(** ** Scenarios *)

(** Concrete requests and store states on which the properties below are
    exercised. *)
Module Scenario.
Import SpecStore.

(** A request whose body is the object with the given properties. *)
Definition request_of (b : list (string * jsval)) (ps : list (string * string))
    (s : session) : request :=
  mkRequest (VObj (list_to_map b)) (list_to_map ps) s.

(** The engine of the scenarios, which hold ASCII text and small numbers
    only: neither of its functions is ever called. *)
Definition engine : Engine := mkEngine (fun s => s) (fun _ => VNaN).

(** U+00A0, the no-break space, in UTF-8. *)
Definition nbsp : string :=
  String (ascii_of_nat 194) (String (ascii_of_nat 160) EmptyString).

(** The seeded store. *)
Definition seeded : store := seedDevAdmin userModel (empty 1000).

(** The administrator asks for a reset token and sets a new password. *)
Definition changed_admin : store :=
  let σ1 := (forgotPassword storage schemas env
               (request_of [("username", VStr "admin")] [] no_session) seeded).2 in
  (resetPassword storage schemas
     (request_of [("token", VStr (randomHex env)); ("password", VStr "n3w-s3cret")] []
        no_session) (at_time 2000 σ1)).2.

Definition admin_after_reset : doc :=
  <["password" := VStr "n3w-s3cret"]> (stored_form 1 1000 adminUser).

Definition login_admin123 : request :=
  request_of [("username", VStr "admin"); ("password", VStr "admin123")] [] no_session.

(** A vehicle is registered; it gets identifier 2. *)
Definition with_vehicle : store :=
  (postVehicle storage schemas
     (request_of [("callSign", VStr "Unit 7"); ("status", VStr "available")] []
        no_session) seeded).2.

(** A case is opened at time 1000; it gets identifier 2. *)
Definition with_case : store :=
  (postCase storage schemas
     (request_of [("title", VStr "Burglary"); ("status", VStr "Open")] [] no_session)
     seeded).2.

(** A report is filed at time 1000; it gets identifier 2. *)
Definition with_report : store :=
  (postReport storage schemas
     (request_of [("title", VStr "Weekly"); ("status", VStr "Pending")] [] no_session)
     seeded).2.
End Scenario.

(** ** Observations on replies *)

(** The user objects a reply carries: the [user] property and the elements
    of the [users] array of its body. *)
Definition user_objects (r : reply) : list jsval :=
  match body_of r with
  | VObj b =>
      (match b !! "user" with
       | Some u => [u]
       | None => []
       end
       ++ match b !! "users" with
          | Some (VArr l) => l
          | _ => []
          end)%list
  | _ => []
  end.

Definition lacks_password (v : jsval) : Prop :=
  match v with
  | VObj u => u !! "password" = None
  | _ => True
  end.

(** [req] as sent within another session. *)
Definition with_session (s : session) (req : request) : request :=
  mkRequest (req_body req) (req_params req) s.

From Stdlib Require DecimalPos DecimalZ.

(** ** Middleware *)

(** What a middleware does with a request: it calls [next()] or it answers
    itself. *)
Inductive gate : Type :=
  | Next
  | Answer (r : reply).

(** [v.k] on a value known to be truthy: an object gives its property, any
    other truthy value has none of the properties read here. *)
Definition get_prop (v : jsval) (k : string) : jsval :=
  match v with
  | VObj o => prop o k
  | _ => VUndefined
  end.

(** [requireAuth] *)
Definition requireAuth (req : request) : gate :=
  if negb (truthy (userId (req_session req))) then
    Answer (Reply 401 (message "Authentication required"))
  else Next.

(** [requireAdmin] *)
Definition requireAdmin (req : request) : gate :=
  if negb (truthy (user (req_session req)))
     || negb (strict_eq (get_prop (user (req_session req)) "role") (VStr "admin")) then
    Answer (Reply 403 (message "Admin access required"))
  else Next.

(** ** The other routes of [registerRoutes] *)

(** [s.split(c)] for a one-character separator: the pieces between the
    separators, empty pieces included. *)
Fixpoint split_on (c : ascii) (s : string) : list string :=
  match s with
  | EmptyString => [EmptyString]
  | String a r =>
      if Ascii.eqb a c then EmptyString :: split_on c r
      else match split_on c r with
           | piece :: pieces => String a piece :: pieces
           | [] => [String a EmptyString]
           end
  end.

(** Whether [c] occurs in [s]. *)
Fixpoint has_char (c : ascii) (s : string) : bool :=
  match s with
  | EmptyString => false
  | String a r => Ascii.eqb a c || has_char c r
  end.

(** [tags ? tags.split(',') : undefined] for a query parameter: a string
    when the parameter is given once; an array or an object (a repeated or
    bracketed parameter) has no [split] to call. *)
Definition tagsFilter (tags : jsval) : result jsval :=
  if truthy tags then
    match tags with
    | VStr s => Ok (VArr (map VStr (split_on "," s)))
    | _ => Throw "tags.split is not a function"
    end
  else Ok VUndefined.

(** [Array.isArray(v)] and [v.length] of an array. *)
Definition isArray (v : jsval) : bool :=
  match v with
  | VArr _ => true
  | _ => false
  end.

Definition array_length (v : jsval) : Z :=
  match v with
  | VArr l => Z.of_nat (length l)
  | _ => 0
  end.

(** The methods of [storage] used by the routes below. *)
Record GeoStorage (S : Type) : Type := mkGeoStorage {
  getGeofiles : doc → M S jsval;
  getGeofile : jsval → M S jsval;
  updateGeofileAccess : jsval → M S unit;
  incrementGeofileDownload : jsval → M S unit;
  updateVehicleLocation : jsval → jsval → M S jsval;
  getReports : M S jsval
}.
Arguments getGeofiles {S} _ _ _.
Arguments getGeofile {S} _ _ _.
Arguments updateGeofileAccess {S} _ _ _.
Arguments incrementGeofileDownload {S} _ _ _.
Arguments updateVehicleLocation {S} _ _ _ _.
Arguments getReports {S} _ _.

Section MoreRoutes.
Context {St : Type} (storage : GeoStorage St) (engine : Engine).

(** GET /api/geofiles, on the query parameters [req.query]. *)
Definition geofileFilter (query : doc) (tags : jsval) : doc :=
  list_to_map
    [ ("search", prop query "search");
      ("fileType", prop query "type");
      ("tags", tags);
      ("accessLevel", prop query "accessLevel");
      ("dateFrom", prop query "dateFrom");
      ("dateTo", prop query "dateTo") ].

Definition listGeofiles (query : doc) : St → reply * St :=
  try_catch
    (let* tags := lift (tagsFilter (prop query "tags")) in
     let* geofiles := getGeofiles storage (geofileFilter query tags) in
     ret (Reply 200 (VObj {[ "geofiles" := geofiles ]})))
    (fun _ => Reply 500 (message "Failed to fetch geofiles")).

(** GET /api/geofiles/:id *)
Definition getGeofileRoute (req : request) : St → reply * St :=
  try_catch
    (let* geofile := getGeofile storage (parseInt engine (param req "id")) in
     if negb (truthy geofile) then
       ret (Reply 404 (message "Geofile not found"))
     else
       let* _ := updateGeofileAccess storage (parseInt engine (param req "id")) in
       ret (Reply 200 geofile))
    (fun _ => Reply 500 (message "Failed to fetch geofile")).

(** GET /api/geofiles/:id/download *)
Definition downloadInfo (geofile : jsval) : doc :=
  list_to_map
    [ ("downloadUrl", js_or (get_prop geofile "fileUrl") (get_prop geofile "filepath"));
      ("filename", get_prop geofile "filename");
      ("fileType", get_prop geofile "fileType");
      ("fileSize", get_prop geofile "fileSize") ].

Definition downloadGeofile (req : request) : St → reply * St :=
  try_catch
    (let* geofile := getGeofile storage (parseInt engine (param req "id")) in
     if negb (truthy geofile) then
       ret (Reply 404 (message "Geofile not found"))
     else
       let* _ := incrementGeofileDownload storage (parseInt engine (param req "id")) in
       ret (Reply 200 (VObj (downloadInfo geofile))))
    (fun _ => Reply 500 (message "Failed to download geofile")).

(** PATCH /api/police-vehicles/:id/location *)
Definition patchVehicleLocation (req : request) : St → reply * St :=
  try_catch
    (let* body := lift (destructure (req_body req)) in
     let location := prop body "location" in
     if negb (truthy location) || negb (isArray location)
        || negb (array_length location =? 2) then
       ret (Reply 400 (message "Invalid location format. Expected [longitude, latitude]"))
     else
       let* updatedVehicle :=
         updateVehicleLocation storage (parseInt engine (param req "id")) location in
       ret (Reply 200 updatedVehicle))
    (fun _ => Reply 400 (message "Failed to update vehicle location")).

(** GET /api/reports *)
Definition listReports (req : request) : St → reply * St :=
  try_catch
    (let* reports := getReports storage in
     ret (Reply 200 (VObj {[ "reports" := reports ]})))
    (fun _ => Reply 500 (message "Failed to fetch reports")).
End MoreRoutes.

(** ** Further scenarios *)

Module Fixture.
Import SpecStore.

(** A second account, registered deactivated; it gets identifier 2. *)
Definition eve_data : doc :=
  list_to_map
    [ ("username", VStr "eve"); ("email", VStr "eve@police.gov");
      ("password", VStr "pw-eve"); ("confirmPassword", VStr "pw-eve");
      ("role", VStr "user"); ("isActive", VBool false) ].

Definition with_inactive : store :=
  (register storage schemas (mkRequest (VObj eve_data) ∅ no_session) Scenario.seeded).2.

Definition eve : doc := stored_form 2 1000 (base.delete "confirmPassword" eve_data).

(** The store after the administrator asked for a reset token. *)
Definition with_token : store :=
  (forgotPassword storage schemas env
     (Scenario.request_of [("username", VStr "admin")] [] no_session) Scenario.seeded).2.

Definition reset_request : request :=
  Scenario.request_of
    [("token", VStr (randomHex env)); ("password", VStr "n3w-s3cret")] [] no_session.

(** Two stored OB entries: one written long ago with a description only,
    one with a creation date. *)
Definition legacy_entry : mongoDoc :=
  mkMongoDoc "65a1f0" {[ "description" := VStr "Lost wallet" ]}.

Definition dated_entry : mongoDoc :=
  mkMongoDoc "65a1f1"
    (<["createdAt" := VDate 1700000000000]>
       (<["officer" := VStr "Officer Mwangi"]> {[ "description" := VStr "Stolen bicycle" ]})).

Definition with_entries : store := set_obEntries Scenario.seeded 2 [legacy_entry; dated_entry].

(** An entry imported with its creation date as text and no [date]. *)
Definition imported_entry : mongoDoc :=
  mkMongoDoc "65a1f2"
    (<["createdAt" := VStr "2024-01-01"]> {[ "description" := VStr "Noise complaint" ]}).

Definition with_imported : store :=
  set_obEntries Scenario.seeded 2 [legacy_entry; imported_entry; dated_entry].

Definition login_eve : request :=
  Scenario.request_of [("username", VStr "eve"); ("password", VStr "pw-eve")] [] no_session.

(** A fresh store in which a user registered with the email of the
    development administrator. *)
Definition with_mail_taken : store :=
  (register storage schemas
     (Scenario.request_of
        [("username", VStr "root"); ("email", VStr "admin@police.gov");
         ("password", VStr "pw-root")] [] no_session)
     (empty 1000)).2.
End Fixture.

(** A stand-in for the storage of the routes above: it records the calls
    it receives and answers from one fixed geofile, stored under the
    identifier 1. *)
Module Recorder.
Definition calls : Type := list (string * list jsval).

Definition sample_geofile : doc :=
  list_to_map
    [ ("id", VNum 1); ("filename", VStr "area.kml"); ("filepath", VStr "/files/area.kml");
      ("fileType", VStr "kml"); ("fileSize", VNum 2048); ("downloadCount", VNum 0) ].

Definition record {A : Type} (name : string) (args : list jsval) (a : A) : M calls A :=
  fun log => (Ok a, (log ++ [(name, args)])%list).

Definition storage : GeoStorage calls := {|
  getGeofiles := fun filter => record "getGeofiles" [VObj filter] (VArr [VObj sample_geofile]);
  getGeofile := fun id =>
    record "getGeofile" [id]
      (if strict_eq id (VNum 1) then VObj sample_geofile else VUndefined);
  updateGeofileAccess := fun id => record "updateGeofileAccess" [id] tt;
  incrementGeofileDownload := fun id => record "incrementGeofileDownload" [id] tt;
  updateVehicleLocation := fun id location =>
    record "updateVehicleLocation" [id; location] (VObj {[ "location" := location ]});
  getReports := record "getReports" [] (VArr [])
|}.
End Recorder.

(** ** Observations on OB entries *)

(** The [createdAt] of a stored entry is a [Date], or is missing. *)
Definition createdAt_is_date (e : doc) : bool :=
  match prop e "createdAt" with
  | VDate _ | VUndefined | VNull => true
  | _ => false
  end.



(** The properties POST /api/ob-entries sets itself. *)
Definition created_entry_keys : list string :=
  [ "obNumber"; "dateTime"; "date"; "time"; "status"; "recordingOfficerId" ].

(** The number a sequence of decimal digits denotes, read from the left
    after [acc]. *)
Fixpoint uint_value (acc : Z) (d : Decimal.uint) : Z :=
  match d with
  | Decimal.Nil => acc
  | Decimal.D0 d => uint_value (acc * 10 + 0) d
  | Decimal.D1 d => uint_value (acc * 10 + 1) d
  | Decimal.D2 d => uint_value (acc * 10 + 2) d
  | Decimal.D3 d => uint_value (acc * 10 + 3) d
  | Decimal.D4 d => uint_value (acc * 10 + 4) d
  | Decimal.D5 d => uint_value (acc * 10 + 5) d
  | Decimal.D6 d => uint_value (acc * 10 + 6) d
  | Decimal.D7 d => uint_value (acc * 10 + 7) d
  | Decimal.D8 d => uint_value (acc * 10 + 8) d
  | Decimal.D9 d => uint_value (acc * 10 + 9) d
  end.

(** ** The reports page of the client *)

(** The component [Reports]: its state, the functions that compute from it
    and the state each event handler leaves once its request has been
    answered. *)
Module ReportsPage.

(** [s.includes(t)]: [t] occurs in [s]. *)
Fixpoint str_includes (s t : string) : bool :=
  String.prefix t s
  || match s with
     | EmptyString => false
     | String _ r => str_includes r t
     end.

(** A number in a template literal, for the integers the identifiers are. *)
Definition decimal (n : Z) : string := NilZero.string_of_int (Z.to_int n).

(** What [fetch] resolves to: [ok] is true for the statuses 200 to 299. *)
Record response : Type := mkResponse {
  status : Z;
  statusText : string;
  contentType : jsval;          (* response.headers.get('content-type') *)
  text : result string;         (* await response.text() *)
  json : result jsval           (* await response.json() *)
}.

Definition ok (r : response) : bool := (200 <=? status r) && (status r <=? 299).

(** [JSON.stringify(v)] followed by [JSON.parse]: what a value is once it
    has travelled as JSON. A [Date] arrives as the text [toJSON] gives
    ([iso], its [toISOString]), [NaN] as [null], a property that is
    [undefined] is left out and an array element that is [undefined]
    arrives as [null]; [undefined] itself has no JSON text. *)
Fixpoint toJSON (iso : Z → string) (v : jsval) : option jsval :=
  match v with
  | VUndefined => None
  | VNaN => Some VNull
  | VDate ms => Some (VStr (iso ms))
  | VArr l => Some (VArr (map (fun x => default VNull (toJSON iso x)) l))
  | VObj o => Some (VObj (omap (toJSON iso) o))
  | VNull | VBool _ | VNum _ | VStr _ => Some v
  end.

(** The response a client gets for a reply of the server: [res.json] sends
    the body as JSON with the matching content type, and [response.json()]
    parses it; an empty body cannot be parsed. (The text of a response is
    only logged by the page.) *)
Definition response_to (iso : Z → string) (statusText : string) (s : Z) (body : jsval)
    : response :=
  mkResponse s statusText (VStr "application/json; charset=utf-8")
    (Ok "")
    (match toJSON iso body with
     | Some data => Ok data
     | None => Throw "Unexpected end of JSON input"
     end).

Record page : Type := mkPage {
  reports : jsval;
  loading : bool;
  error : jsval;
  searchTerm : string;
  filterType : string;
  filterStatus : string;
  showAddModal : bool;
  editingReport : jsval;
  refreshing : bool;
  formData : doc
}.

Definition emptyForm : doc :=
  list_to_map
    [ ("type", VStr ""); ("title", VStr ""); ("content", VStr "");
      ("status", VStr "Pending"); ("priority", VStr "Medium");
      ("caseId", VStr ""); ("obId", VStr ""); ("evidenceId", VStr "") ].

(** The state of the component when it is mounted. *)
Definition initial : page :=
  mkPage (VArr []) true VNull "" "all" "all" false VNull false emptyForm.

Definition set_reports (v : jsval) (p : page) : page :=
  mkPage v (loading p) (error p) (searchTerm p) (filterType p) (filterStatus p)
    (showAddModal p) (editingReport p) (refreshing p) (formData p).

Definition set_loading (b : bool) (p : page) : page :=
  mkPage (reports p) b (error p) (searchTerm p) (filterType p) (filterStatus p)
    (showAddModal p) (editingReport p) (refreshing p) (formData p).

Definition set_error (v : jsval) (p : page) : page :=
  mkPage (reports p) (loading p) v (searchTerm p) (filterType p) (filterStatus p)
    (showAddModal p) (editingReport p) (refreshing p) (formData p).

Definition set_form (show : bool) (editing : jsval) (form : doc) (p : page) : page :=
  mkPage (reports p) (loading p) (error p) (searchTerm p) (filterType p) (filterStatus p)
    show editing (refreshing p) form.

(** [v.k] for any value: reading a property of [undefined] or [null] is a
    [TypeError]. *)
Definition member (v : jsval) (k : string) : result jsval :=
  match v with
  | VUndefined | VNull => Throw "Cannot read properties of undefined"
  | _ => Ok (get_prop v k)
  end.

(** [fetchReports], given what [fetch('/api/reports')] resolved to (or the
    error it was rejected with). *)
Definition fetched (resp : result response) : result jsval :=
  match resp with
  | Throw e => Throw e
  | Ok r =>
      if negb (ok r) then
        match text r with
        | Throw e => Throw e
        | Ok _ =>
            Throw ("HTTP error! status: " ++ decimal (status r) ++ " - " ++ statusText r)
        end
      else if negb (truthy (contentType r))
              || negb (match contentType r with
                       | VStr c => str_includes c "application/json"
                       | _ => false
                       end) then
        match text r with
        | Throw e => Throw e
        | Ok _ => Throw "Server returned non-JSON response"
        end
      else
        match json r with
        | Throw e => Throw e
        | Ok data =>
            match member data "reports" with
            | Throw e => Throw e
            | Ok found => Ok (js_or found (VArr []))
            end
        end
  end.

Definition fetchReports (resp : result response) (p : page) : page :=
  match fetched resp with
  | Ok found => set_loading false (set_reports found p)
  | Throw e => set_loading false (set_error (VStr ("Failed to fetch reports: " ++ e)) p)
  end.

Section Filter.
Context (engine : Engine).

(** [field?.toLowerCase().includes(searchTerm.toLowerCase())] *)
Definition fieldMatches (field : jsval) (term : string) : result jsval :=
  match field with
  | VUndefined | VNull => Ok VUndefined
  | VStr s => Ok (VBool (str_includes (toLowerCase engine s) (toLowerCase engine term)))
  | _ => Throw "toLowerCase is not a function"
  end.

(** [a || b || c] over the three searched fields, left to right. *)
Definition matchesSearch (report : jsval) (term : string) : result jsval :=
  match member report "title" with
  | Throw e => Throw e
  | Ok title =>
      match fieldMatches title term with
      | Throw e => Throw e
      | Ok a =>
          if truthy a then Ok a
          else match fieldMatches (get_prop report "content") term with
               | Throw e => Throw e
               | Ok b =>
                   if truthy b then Ok b
                   else fieldMatches (get_prop report "reportNumber") term
               end
      end
  end.

Definition matchesFilter (choice : string) (field : jsval) : bool :=
  String.eqb choice "all" || strict_eq field (VStr choice).

(** The callback of [reports.filter]. *)
Definition shown (p : page) (report : jsval) : result bool :=
  match matchesSearch report (searchTerm p) with
  | Throw e => Throw e
  | Ok found =>
      Ok (truthy found
          && matchesFilter (filterType p) (get_prop report "type")
          && matchesFilter (filterStatus p) (get_prop report "status"))
  end.
End Filter.

Fixpoint filter_with (f : jsval → result bool) (l : list jsval) : result (list jsval) :=
  match l with
  | [] => Ok []
  | x :: rest =>
      match f x with
      | Throw e => Throw e
      | Ok keep =>
          match filter_with f rest with
          | Throw e => Throw e
          | Ok kept => Ok (if keep then x :: kept else kept)
          end
      end
  end.

(** [filteredReports], computed at every rendering. *)
Definition filteredReports (engine : Engine) (p : page) : result (list jsval) :=
  match reports p with
  | VArr l => filter_with (shown engine p) l
  | _ => Throw "reports.filter is not a function"
  end.

(** [handleEdit(report)] *)
Definition formOf (report : jsval) : doc :=
  list_to_map
    [ ("type", js_or (get_prop report "type") (VStr ""));
      ("title", js_or (get_prop report "title") (VStr ""));
      ("content", js_or (get_prop report "content") (VStr ""));
      ("status", js_or (get_prop report "status") (VStr "Pending"));
      ("priority", js_or (get_prop report "priority") (VStr "Medium"));
      ("caseId", js_or (get_prop report "caseId") (VStr ""));
      ("obId", js_or (get_prop report "obId") (VStr ""));
      ("evidenceId", js_or (get_prop report "evidenceId") (VStr "")) ].

Definition handleEdit (report : jsval) (p : page) : result page :=
  match member report "type" with
  | Throw e => Throw e
  | Ok _ => Ok (set_form true report (formOf report) p)
  end.

(** The fields of the form. *)
Definition formFields : list string :=
  [ "type"; "title"; "content"; "status"; "priority"; "caseId"; "obId"; "evidenceId" ].

(** [resetForm()] *)
Definition resetForm (p : page) : page :=
  set_form (showAddModal p) (editingReport p) emptyForm p.

(** [getPriorityClass(priority)] *)
Definition getPriorityClass (priority : jsval) : string :=
  if strict_eq priority (VStr "High") || strict_eq priority (VStr "Urgent") then
    "priority-high"
  else if strict_eq priority (VStr "Medium") then "priority-medium"
  else if strict_eq priority (VStr "Low") then "priority-low"
  else "priority-medium".

Fixpoint map_with (f : jsval → result jsval) (l : list jsval) : result (list jsval) :=
  match l with
  | [] => Ok []
  | x :: rest =>
      match f x with
      | Throw e => Throw e
      | Ok y =>
          match map_with f rest with
          | Throw e => Throw e
          | Ok ys => Ok (y :: ys)
          end
      end
  end.

(** The updaters passed to [setReports]: what they make of the previous
    list, or the error they throw. *)

(** [prev.map(report => report.id === editingReport.id ? data.report : report)] *)
Definition replaced (editing data prev : jsval) : result jsval :=
  match prev with
  | VArr l =>
      match map_with (fun report =>
                        match member report "id" with
                        | Throw e => Throw e
                        | Ok id =>
                            if strict_eq id (get_prop editing "id")
                            then member data "report" else Ok report
                        end) l with
      | Throw e => Throw e
      | Ok l' => Ok (VArr l')
      end
  | _ => Throw "prevReports.map is not a function"
  end.

(** [[data.report, ...prevReports]]; a string is iterable, by characters. *)
Definition prepended (data prev : jsval) : result jsval :=
  match member data "report" with
  | Throw e => Throw e
  | Ok created =>
      match prev with
      | VArr l => Ok (VArr (created :: l))
      | VStr s =>
          Ok (VArr (created :: map (fun c => VStr (String c EmptyString))
                                 (list_ascii_of_string s)))
      | _ => Throw "prevReports is not iterable"
      end
  end.


(** A value in a template literal. Numbers are the integers the
    identifiers are; [dateText] is [Date.prototype.toString]. *)
Fixpoint template (dateText : Z → string) (v : jsval) : string :=
  match v with
  | VUndefined => "undefined"
  | VNull => "null"
  | VBool true => "true"
  | VBool false => "false"
  | VNum n => decimal n
  | VNaN => "NaN"
  | VStr s => s
  | VDate ms => dateText ms
  | VArr l =>
      String.concat ","
        (map (fun x => match x with
                       | VUndefined | VNull => ""
                       | _ => template dateText x
                       end) l)
  | VObj _ => "[object Object]"
  end.

(** The request [handleSubmit] sends: method, path and JSON body. *)
Definition submitRequest (dateText : Z → string) (p : page) : string * string * jsval :=
  if truthy (editingReport p) then
    ("PUT", "/api/reports/" ++ template dateText (get_prop (editingReport p) "id"),
     VObj (formData p))
  else ("POST", "/api/reports", VObj (formData p)).

(** The answer to a request once [response.ok] has been checked, or the
    error thrown on the way. *)
Definition answered (failure : string) (resp : result response) : result response :=
  match resp with
  | Throw e => Throw e
  | Ok r => if negb (ok r) then Throw (failure ++ decimal (status r)) else Ok r
  end.

(** [await response.json()] of such an answer. *)
Definition answeredJson (failure : string) (resp : result response) : result jsval :=
  match answered failure resp with
  | Throw e => Throw e
  | Ok r => json r
  end.

(** [handleSubmit], given the answer to its request: the state it leaves,
    or the error thrown by the updater of the list. *)
Definition handleSubmit (resp : result response) (p : page) : result page :=
  let failure :=
    if truthy (editingReport p) then "Failed to update report: "
    else "Failed to create report: " in
  match answeredJson failure resp with
  | Throw e =>
      Ok (set_loading false (set_error (VStr ("Failed to save report: " ++ e)) p))
  | Ok data =>
      match (if truthy (editingReport p)
             then replaced (editingReport p) data (reports p)
             else prepended data (reports p)) with
      | Throw e => Throw e
      | Ok l => Ok (set_loading false (set_form false VNull emptyForm (set_reports l p)))
      end
  end.

End ReportsPage.

(** A page with three reports, the third without any text. *)
Module PageFixture.
Import ReportsPage.

Definition burglary : doc :=
  list_to_map
    [ ("id", VNum 1); ("title", VStr "Burglary on Main Street");
      ("content", VStr "Forced entry through the back door.");
      ("type", VStr "Incident"); ("status", VStr "Pending"); ("priority", VStr "High") ].

Definition summary : doc :=
  list_to_map
    [ ("id", VNum 2); ("title", VStr "Weekly summary");
      ("type", VStr "Case Summary"); ("status", VStr "Approved") ].

Definition blank : doc := {[ "id" := VNum 3 ]}.

Definition three : list jsval := [VObj burglary; VObj summary; VObj blank].

Definition loaded : page := set_loading false (set_reports (VArr three) initial).

(** The user types BURGLARY and chooses the type Incident. *)
Definition searching : page :=
  mkPage (VArr three) false VNull "BURGLARY" "Incident" "all" false VNull false emptyForm.

(** The user has opened the summary for editing. *)
Definition editing : page := set_form true (VObj summary) (formOf (VObj summary)) loaded.

(** The user has filled in the form for a new report. *)
Definition filled : page :=
  set_form true VNull
    (<["content" := VStr "Two bicycles taken from the yard."]>
       (<["title" := VStr "Theft of bicycles"]> (<["type" := VStr "Incident"]> emptyForm)))
    loaded.

(** The requests of the page as the server receives them, and what it
    answers from the store of the specification. *)
Definition post_request : request :=
  mkRequest (VObj (formData filled)) ∅ no_session.

Definition created : doc :=
  spread (body_of (postReport SpecStore.storage SpecStore.schemas post_request
                     Scenario.seeded).1).

Definition put_request : request :=
  mkRequest (VObj (formData editing)) {[ "id" := decimal 2 ]} no_session.

Definition updated : doc :=
  spread (body_of (putReport SpecStore.storage SpecStore.schemas Scenario.engine put_request
                     (SpecStore.at_time 2000 Scenario.with_report)).1).
End PageFixture.

(** * Properties *)

(** Runs a handler symbolically: the monadic plumbing is unfolded, and
    [split_calls] splits every call whose outcome decides the control flow. *)
Ltac unfold_handler :=
  unfold try_catch, no_catch, bind, ret, lift, throw in *.

Ltac split_calls :=
  repeat match goal with
         | |- context [match ?x with _ => _ end] =>
             lazymatch x with
             | context [match _ with _ => _ end] => fail
             | _ => destruct x eqn:?; simpl
             end
         end.

Lemma strict_eq_str (v : jsval) (s : string) : strict_eq v (VStr s) = true ↔ v = VStr s.
Proof.
  destruct v; simpl; try (split; [discriminate | intros [=]]).
  rewrite String.eqb_eq. split; [intros ->; reflexivity | intros [=]; assumption].
Qed.

(** ** Login *)

Section LoginProperties.
Context {St : Type} (storage : Storage St) (schema : Schemas).

(** Outside the pair [admin]/[admin123], a password that differs from the
    stored one is refused with 401 and the session stays as it was. *)
Lemma login_wrong_password_refused (req : request) (σ σ1 : St) (creds u : doc) :
  loginSchema schema (req_body req) = Ok creds →
  getUserByUsername storage (prop creds "username") σ = (Ok (Some u), σ1) →
  strict_eq (prop u "password") (prop creds "password") = false →
  (prop u "username" ≠ VStr "admin" ∨ prop creds "password" ≠ VStr "admin123") →
  login storage schema req σ
  = (Reply 401 (message "Invalid credentials"), req_session req, σ1).
Proof.
  intros Hparse Hfind Hpw Hnot. unfold login. unfold_handler.
  rewrite Hparse, Hfind, Hpw. simpl.
  destruct Hnot as [Hn | Hn].
  - destruct (strict_eq (prop u "username") (VStr "admin")) eqn:E; [|reflexivity].
    apply strict_eq_str in E. contradiction.
  - destruct (strict_eq (prop creds "password") (VStr "admin123")) eqn:E.
    + apply strict_eq_str in E. contradiction.
    + rewrite andb_false_r. reflexivity.
Qed.

(** C1 (the code departs from it). The claim: a login whose password is
    not the user's stored password is rejected with 401 for every
    username, [admin] included. The handler instead accepts the password
    [admin123] for the active user named [admin] whatever password is
    stored for that user: the reply is 200 with the user object and the
    session is established. *)
Theorem login_admin123_bypasses_stored_password
    (req : request) (σ σ1 σ2 : St) (creds u : doc) :
  loginSchema schema (req_body req) = Ok creds →
  prop creds "password" = VStr "admin123" →
  getUserByUsername storage (prop creds "username") σ = (Ok (Some u), σ1) →
  prop u "username" = VStr "admin" →
  prop u "password" ≠ VStr "admin123" →
  truthy (prop u "isActive") = true →
  updateLastLogin storage (prop u "id") σ1 = (Ok tt, σ2) →
  login storage schema req σ
  = (Reply 200 (VObj {[ "user" := VObj (userWithoutPassword u) ]}),
     mkSession (prop u "id") (VObj u), σ2).
Proof.
  intros Hparse Hpw Hfind Hname Hstored Hactive Hlast.
  unfold login. unfold_handler.
  rewrite Hparse, Hfind, Hpw, Hname, Hactive. simpl.
  rewrite orb_true_r. simpl. rewrite Hlast. reflexivity.
Qed.
End LoginProperties.

(** After the administrator has replaced the seeded password through the
    reset flow, [admin123] still logs in. *)
Lemma login_admin123_bypasses_stored_password_witness :
  prop Scenario.admin_after_reset "password" ≠ VStr "admin123" ∧
  login SpecStore.storage SpecStore.schemas Scenario.login_admin123 Scenario.changed_admin
  = (Reply 200 (VObj {[ "user" := VObj (userWithoutPassword Scenario.admin_after_reset) ]}),
     mkSession (prop Scenario.admin_after_reset "id") (VObj Scenario.admin_after_reset),
     (SpecStore.touch "lastLogin" (VNum 1) Scenario.changed_admin).2).
Proof.
  split; [vm_compute; discriminate |].
  apply (login_admin123_bypasses_stored_password SpecStore.storage SpecStore.schemas
           Scenario.login_admin123 Scenario.changed_admin Scenario.changed_admin _
           (list_to_map [("username", VStr "admin"); ("password", VStr "admin123")])).
  - vm_compute; reflexivity.
  - vm_compute; reflexivity.
  - vm_compute; reflexivity.
  - vm_compute; reflexivity.
  - vm_compute; discriminate.
  - vm_compute; reflexivity.
  - vm_compute; reflexivity.
Defined.

(** ** Forgotten passwords *)

Section ForgotPasswordProperties.
Context {St : Type} (storage : Storage St) (schema : Schemas) (env : Env).

(** C2 (the code departs from it). The claim: the replies to a
    forgot-password request for a username that exists and for one that
    does not are indistinguishable. The handler answers the first with
    the message "Password reset token generated" and the token, and the
    second with the message "If the username exists, a reset token has
    been generated": the two replies differ. *)
Theorem forgotPassword_tells_known_from_unknown
    (known unknown : request) (σ σ1 σ2 σ3 : St) (p1 p2 u : doc) :
  forgotPasswordSchema schema (req_body known) = Ok p1 →
  getUserByUsername storage (prop p1 "username") σ = (Ok (Some u), σ1) →
  createPasswordResetToken storage (prop u "id") (randomHex env) σ1 = (Ok tt, σ2) →
  forgotPasswordSchema schema (req_body unknown) = Ok p2 →
  getUserByUsername storage (prop p2 "username") σ = (Ok None, σ3) →
  (forgotPassword storage schema env known σ).1
  = Reply 200 (VObj (<["token" := VStr (randomHex env)]>
                       {[ "message" := VStr "Password reset token generated" ]})) ∧
  (forgotPassword storage schema env unknown σ).1
  = Reply 200 (message "If the username exists, a reset token has been generated") ∧
  (forgotPassword storage schema env known σ).1
  ≠ (forgotPassword storage schema env unknown σ).1.
Proof.
  intros Hp1 Hfind1 Htoken Hp2 Hfind2.
  assert (H1 : (forgotPassword storage schema env known σ).1
               = Reply 200 (VObj (<["token" := VStr (randomHex env)]>
                       {[ "message" := VStr "Password reset token generated" ]}))).
  { unfold forgotPassword. unfold_handler. rewrite Hp1, Hfind1, Htoken. reflexivity. }
  assert (H2 : (forgotPassword storage schema env unknown σ).1
               = Reply 200 (message "If the username exists, a reset token has been generated")).
  { unfold forgotPassword. unfold_handler. rewrite Hp2, Hfind2. reflexivity. }
  split; [exact H1 | split; [exact H2 |]].
  rewrite H1, H2. unfold message. intros Heq.
  apply (f_equal (fun r => prop (spread (body_of r)) "token")) in Heq.
  cbn [body_of spread] in Heq. unfold prop in Heq.
  rewrite lookup_insert_eq, lookup_singleton_ne in Heq by discriminate.
  discriminate.
Qed.
End ForgotPasswordProperties.

(** In the seeded store [admin] is a user and [bob] is not. *)
Lemma forgotPassword_tells_known_from_unknown_witness :
  let known := Scenario.request_of [("username", VStr "admin")] [] no_session in
  let unknown := Scenario.request_of [("username", VStr "bob")] [] no_session in
  (forgotPassword SpecStore.storage SpecStore.schemas SpecStore.env known Scenario.seeded).1
  ≠ (forgotPassword SpecStore.storage SpecStore.schemas SpecStore.env unknown Scenario.seeded).1.
Proof.
  intros known unknown.
  refine (proj2 (proj2 (forgotPassword_tells_known_from_unknown
    SpecStore.storage SpecStore.schemas SpecStore.env known unknown
    Scenario.seeded Scenario.seeded _ Scenario.seeded
    (list_to_map [("username", VStr "admin")]) (list_to_map [("username", VStr "bob")])
    (SpecStore.stored_form 1 1000 adminUser) _ _ _ _ _))).
  all: vm_compute; reflexivity.
Defined.

(** ** User objects in replies *)

Lemma user_objects_user (s : Z) (v : jsval) :
  user_objects (Reply s (VObj {[ "user" := v ]})) = [v].
Proof.
  unfold user_objects. simpl.
  rewrite lookup_singleton_eq, lookup_singleton_ne by discriminate. reflexivity.
Qed.

Lemma user_objects_users (s : Z) (l : list jsval) :
  user_objects (Reply s (VObj {[ "users" := VArr l ]})) = l.
Proof.
  unfold user_objects. simpl.
  rewrite lookup_singleton_eq, lookup_singleton_ne by discriminate. reflexivity.
Qed.

Lemma user_objects_message (s : Z) (m : string) :
  user_objects (Reply s (message m)) = [].
Proof.
  unfold user_objects, message. simpl.
  rewrite !lookup_singleton_ne by discriminate. reflexivity.
Qed.

Lemma lacks_password_stripped (u : doc) : lacks_password (VObj (userWithoutPassword u)).
Proof. apply lookup_delete_eq. Qed.

Lemma lacks_password_map (l : list doc) :
  Forall lacks_password (map (fun u => VObj (delete "password" u)) l).
Proof.
  induction l as [|u l IH]; simpl; constructor; [apply lookup_delete_eq | exact IH].
Qed.

Ltac no_password :=
  rewrite ?user_objects_user, ?user_objects_users, ?user_objects_message;
  repeat constructor; try apply lacks_password_stripped.

Section PasswordNeverSent.
Context {St : Type} (storage : Storage St) (schema : Schemas).

(** C3. Whatever the request and the state of the store, no user object
    in a reply of login, register, /me, profile update or the user list
    has a [password] property. *)
Theorem replies_carry_no_password (req : request) (σ : St) :
  Forall lacks_password (user_objects (login storage schema req σ).1.1) ∧
  Forall lacks_password (user_objects (register storage schema req σ).1) ∧
  Forall lacks_password (user_objects (me storage req σ).1) ∧
  Forall lacks_password (user_objects (putProfile storage schema req σ).1) ∧
  Forall lacks_password (user_objects (getUsers storage req σ).1).
Proof.
  repeat split.
  - unfold login. unfold_handler. split_calls; no_password.
  - unfold register. unfold_handler. split_calls; no_password.
  - unfold me. unfold_handler. split_calls; no_password.
  - unfold putProfile. unfold_handler. split_calls; no_password.
  - unfold getUsers. unfold_handler. split_calls; no_password.
    apply lacks_password_map.
Qed.
End PasswordNeverSent.

Lemma strict_eq_num (v : jsval) (n : Z) : strict_eq v (VNum n) = true ↔ v = VNum n.
Proof.
  destruct v; simpl; try (split; [discriminate | intros [=]]).
  rewrite Z.eqb_eq. split; [intros ->; reflexivity | intros [=]; assumption].
Qed.

(** The property is not empty: a successful login on the seeded store
    replies with the user object, which has its other fields and no
    password, while the session keeps the stored user as it is. *)
Example login_reply_has_user_without_password :
  let '(r, s, _) := login SpecStore.storage SpecStore.schemas Scenario.login_admin123
                      Scenario.seeded in
  status_of r = Some 200 ∧
  (fun v => (prop (spread v) "username", prop (spread v) "password")) <$> user_objects r
  = [(VStr "admin", VUndefined)] ∧
  prop (spread (user s)) "password" = VStr "admin123".
Proof. vm_compute. repeat split. Qed.

(** ** Geofiles *)

Section GeofileProperties.
Context {St : Type} (storage : Storage St) (env : Env) (engine : Engine).

(** The three properties the handler sets leave [fileType] as the body
    has it. *)
Lemma geofileData_fileType (body : jsval) :
  prop (geofileData env body) "fileType" = prop (spread body) "fileType".
Proof.
  unfold geofileData, set_prop, prop.
  rewrite !lookup_insert_ne by discriminate. reflexivity.
Qed.



(** A [fileType] that is not a string never reaches the store. *)
Lemma postGeofile_rejects_non_string (req : request) (σ : St) :
  (∀ s, prop (spread (req_body req)) "fileType" ≠ VStr s) →
  ∃ m, postGeofile storage env engine req σ = (Reply 400 (message m), σ).
Proof.
  intros Hs. unfold postGeofile. unfold_handler. rewrite geofileData_fileType.
  destruct (prop (spread (req_body req)) "fileType") eqn:E; simpl;
    try (eexists; reflexivity).
  exfalso. eapply Hs. reflexivity.
Qed.
End GeofileProperties.

(** On ASCII text the lower case does not depend on the engine. *)
Lemma toLowerCase_ascii (engine : Engine) (s : string) :
  is_ascii s = true → toLowerCase engine s = lower_ascii_string s.
Proof. intros H. unfold toLowerCase. rewrite H. reflexivity. Qed.



(** ** Users *)

Section DeleteUserProperties.
Context {St : Type} (storage : Storage St) (engine : Engine).

(** C5. A DELETE whose identifier parses to 1 is answered with 400 and
    leaves the store as it was; for any other identifier the store is
    asked to delete that user, and the reply is success, or 404 when the
    store throws. *)
Theorem deleteUserRoute_protects_identifier_1 (req : request) (σ : St) :
  (parseInt engine (param req "id") = VNum 1 →
   deleteUserRoute storage engine req σ
   = (Reply 400 (message "Cannot delete admin account"), σ)) ∧
  (parseInt engine (param req "id") ≠ VNum 1 →
   deleteUserRoute storage engine req σ
   = match deleteUser storage (parseInt engine (param req "id")) σ with
     | (Ok _, σ') => (Reply 200 (message "User deleted successfully"), σ')
     | (Throw _, σ') => (Reply 404 (message "User not found"), σ')
     end).
Proof.
  split; intros Hid; unfold deleteUserRoute.
  - rewrite Hid. reflexivity.
  - destruct (strict_eq (parseInt engine (param req "id")) (VNum 1)) eqn:E.
    + apply strict_eq_num in E. contradiction.
    + unfold_handler. destruct (deleteUser storage _ σ) as [[[]|e] σ']; reflexivity.
Qed.
End DeleteUserProperties.

(** Identifier "1" on the seeded store: 400, and the administrator is
    still there, also when the identifier is written " 1" with a no-break
    space, "+1" or "0x1"; identifier "2" names no user: 404. *)
Lemma deleteUserRoute_protects_identifier_1_witness :
  let one := Scenario.request_of [] [("id", "1")] no_session in
  let two := Scenario.request_of [] [("id", "2")] no_session in
  deleteUserRoute SpecStore.storage Scenario.engine one Scenario.seeded
  = (Reply 400 (message "Cannot delete admin account"), Scenario.seeded) ∧
  (getUser SpecStore.storage (VNum 1) Scenario.seeded).1
  = Ok (Some (SpecStore.stored_form 1 1000 adminUser)) ∧
  Forall (fun id =>
            deleteUserRoute SpecStore.storage Scenario.engine
              (Scenario.request_of [] [("id", id)] no_session) Scenario.seeded
            = (Reply 400 (message "Cannot delete admin account"), Scenario.seeded))
    [Scenario.nbsp ++ "1"; "+1"; "0x1"; " 1.5"; "1abc"] ∧
  deleteUserRoute SpecStore.storage Scenario.engine two Scenario.seeded
  = (Reply 404 (message "User not found"), Scenario.seeded).
Proof.
  intros one two. split; [| split; [| split]].
  - apply (proj1 (deleteUserRoute_protects_identifier_1 SpecStore.storage Scenario.engine
                    one Scenario.seeded)).
    vm_compute; reflexivity.
  - vm_compute; reflexivity.
  - repeat constructor;
      apply (proj1 (deleteUserRoute_protects_identifier_1 SpecStore.storage Scenario.engine
                      _ Scenario.seeded));
      vm_compute; reflexivity.
  - rewrite (proj2 (deleteUserRoute_protects_identifier_1 SpecStore.storage Scenario.engine
                      two Scenario.seeded)).
    + vm_compute; reflexivity.
    + vm_compute; discriminate.
Defined.

(** ** The store of the specification *)

Section StoreFacts.
Import SpecStore.

Lemma find_by_has (k : string) (v : jsval) (c : list doc) (d : doc) :
  find_by k v c = Some d → has k v d = true.
Proof. intros H. apply find_some in H. apply H. Qed.

Lemma find_by_replace (k : string) (v : jsval) (new old : doc) (c : list doc) :
  find_by k v c = Some old → has k v new = true →
  find_by k v (replace_by k v new c) = Some new.
Proof.
  intros Hfind Hnew. induction c as [|d c IH]; [discriminate |].
  unfold find_by in *. simpl in *.
  destruct (has k v d) eqn:Hd.
  - simpl. rewrite Hnew. reflexivity.
  - simpl. rewrite Hd. apply IH. exact Hfind.
Qed.

Lemma replace_by_other (k : string) (v : jsval) (new d : doc) (c : list doc) :
  In d c → has k v d = false → In d (replace_by k v new c).
Proof.
  intros Hin Hd. unfold replace_by. apply in_map_iff. exists d.
  rewrite Hd. split; [reflexivity | exact Hin].
Qed.

Lemma mutable_part_immutable (updates : doc) (k : string) :
  immutable k = true → mutable_part updates !! k = None.
Proof.
  intros Hk. unfold mutable_part. apply map_lookup_filter_None. right.
  intros v _. simpl. rewrite Hk. discriminate.
Qed.

Lemma mutable_part_absent (updates : doc) (k : string) :
  updates !! k = None → mutable_part updates !! k = None.
Proof.
  intros Hk. unfold mutable_part. apply map_lookup_filter_None. left. exact Hk.
Qed.

Lemma mutable_part_submitted (updates : doc) (k : string) (v : jsval) :
  immutable k = false → updates !! k = Some v → mutable_part updates !! k = Some v.
Proof.
  intros Hk Hv. unfold mutable_part. apply map_lookup_filter_Some. split; assumption.
Qed.

Lemma updated_form_updatedAt (now : Z) (updates old : doc) :
  updated_form now updates old !! "updatedAt" = Some (VDate now).
Proof. unfold updated_form. apply lookup_insert_eq. Qed.

Lemma updated_form_immutable (now : Z) (updates old : doc) (k : string) :
  immutable k = true → updated_form now updates old !! k = old !! k.
Proof.
  intros Hk. unfold updated_form.
  rewrite lookup_insert_ne by (intros <-; discriminate).
  rewrite lookup_union_r by (apply mutable_part_immutable; exact Hk). reflexivity.
Qed.

Lemma updated_form_frame (now : Z) (updates old : doc) (k : string) :
  k ≠ "updatedAt" → updates !! k = None → updated_form now updates old !! k = old !! k.
Proof.
  intros Hk Hnone. unfold updated_form.
  rewrite lookup_insert_ne by congruence.
  rewrite lookup_union_r by (apply mutable_part_absent; exact Hnone). reflexivity.
Qed.

Lemma updated_form_submitted (now : Z) (updates old : doc) (k : string) (v : jsval) :
  k ≠ "updatedAt" → immutable k = false → updates !! k = Some v →
  updated_form now updates old !! k = Some v.
Proof.
  intros Hk Hmut Hv. unfold updated_form.
  rewrite lookup_insert_ne by congruence.
  apply lookup_union_Some_l. apply mutable_part_submitted; assumption.
Qed.

Lemma updated_form_has_id (now : Z) (updates old : doc) (id : jsval) :
  has "id" id old = true → has "id" id (updated_form now updates old) = true.
Proof.
  unfold has, prop. rewrite updated_form_immutable by reflexivity. trivial.
Qed.

Lemma update_found (get : store → list doc) (set : store → Z → list doc → store)
    (id : jsval) (updates old : doc) (σ : store) :
  find_by "id" id (get σ) = Some old →
  update get set id updates σ
  = (Ok (updated_form (clock σ) updates old),
     set σ (nextId σ) (replace_by "id" id (updated_form (clock σ) updates old) (get σ))).
Proof. intros H. unfold update. rewrite H. reflexivity. Qed.

End StoreFacts.

(** ** Vehicle status *)

Lemma vehicle_status_accepted (s : string) :
  In s vehicleStatuses →
  truthy (VStr s) = true ∧ includes vehicleStatuses (VStr s) = true.
Proof.
  simpl. intros [<- | [<- | [<- | [<- | []]]]]; split; reflexivity.
Qed.

(** C6. A status outside the four allowed values (or a body with none) is
    answered with 400 and the store is left as it was; a status among them,
    for a vehicle the store holds, is answered with 200 and the updated
    vehicle, and a GET of the same identifier afterwards returns that
    vehicle, with the new status. *)
Theorem patchVehicleStatus_validates_then_updates :
  (∀ (St : Type) (storage : Storage St) (engine : Engine) (req : request) (σ : St),
     (∀ b, destructure (req_body req) = Ok b →
           includes vehicleStatuses (prop b "status") = false) →
     ∃ m, patchVehicleStatus storage engine req σ = (Reply 400 (message m), σ)) ∧
  (∀ (engine : Engine) (req : request) (σ : SpecStore.store) (b v : doc) (s : string),
     destructure (req_body req) = Ok b →
     prop b "status" = VStr s →
     In s vehicleStatuses →
     SpecStore.find_by "id" (parseInt engine (param req "id")) (SpecStore.vehicles σ) = Some v →
     ∃ v' σ',
       patchVehicleStatus SpecStore.storage engine req σ = (Reply 200 (VObj v'), σ') ∧
       prop v' "status" = VStr s ∧
       ∀ req', param req' "id" = param req "id" →
               getVehicle SpecStore.storage engine req' σ' = (Reply 200 (VObj v'), σ')).
Proof.
  split.
  - intros St storage engine req σ Hout. unfold patchVehicleStatus. unfold_handler.
    destruct (destructure (req_body req)) as [b|e] eqn:Hb.
    + rewrite (Hout b eq_refl), orb_true_r. eexists. reflexivity.
    + eexists. reflexivity.
  - intros engine req σ b v s Hb Hs Hin Hfind.
    destruct (vehicle_status_accepted s Hin) as [Htruthy Hincl].
    pose (new := SpecStore.updated_form (SpecStore.clock σ) {[ "status" := VStr s ]} v).
    exists new. eexists. split; [| split].
    + unfold patchVehicleStatus. unfold_handler.
      rewrite Hb, Hs, Htruthy, Hincl. simpl.
      unfold bind. rewrite (update_found _ _ _ _ v σ Hfind). reflexivity.
    + unfold prop, new.
      rewrite (updated_form_submitted _ _ _ "status" (VStr s));
        [reflexivity | discriminate | reflexivity | apply lookup_singleton_eq].
    + intros req' Hid. unfold getVehicle. unfold_handler. rewrite Hid. simpl.
      unfold bind, SpecStore.getById. simpl.
      rewrite (find_by_replace "id" _ new v).
      * reflexivity.
      * exact Hfind.
      * apply updated_form_has_id. eapply find_by_has. exact Hfind.
Qed.

(** The scenario of the specification on vehicle 2: "flying" is refused,
    "on_patrol" is accepted and then read back. *)
Lemma patchVehicleStatus_validates_then_updates_witness :
  let flying := Scenario.request_of [("status", VStr "flying")] [("id", "2")] no_session in
  let on_patrol := Scenario.request_of [("status", VStr "on_patrol")] [("id", "2")] no_session in
  let get := Scenario.request_of [] [("id", "2")] no_session in
  (∃ m, patchVehicleStatus SpecStore.storage Scenario.engine flying Scenario.with_vehicle
        = (Reply 400 (message m), Scenario.with_vehicle)) ∧
  (∃ v' σ',
     patchVehicleStatus SpecStore.storage Scenario.engine on_patrol Scenario.with_vehicle
     = (Reply 200 (VObj v'), σ') ∧
     prop v' "status" = VStr "on_patrol" ∧
     getVehicle SpecStore.storage Scenario.engine get σ' = (Reply 200 (VObj v'), σ')).
Proof.
  intros flying on_patrol get. split.
  - apply (proj1 patchVehicleStatus_validates_then_updates).
    intros b Hb. vm_compute in Hb. injection Hb as <-. vm_compute. reflexivity.
  - destruct (proj2 patchVehicleStatus_validates_then_updates Scenario.engine on_patrol Scenario.with_vehicle
                (list_to_map [("status", VStr "on_patrol")])
                (SpecStore.stored_form 2 1000
                   (list_to_map [("callSign", VStr "Unit 7"); ("status", VStr "available")]))
                "on_patrol")
      as (v' & σ' & Hpatch & Hstatus & Hget).
    + vm_compute; reflexivity.
    + vm_compute; reflexivity.
    + simpl. tauto.
    + vm_compute; reflexivity.
    + exists v', σ'. split; [exact Hpatch | split; [exact Hstatus |]].
      apply Hget. reflexivity.
Defined.

(** ** OB entries *)

Section ObEntryProperties.
Context {St : Type} (storage : Storage St) (schema : Schemas) (env : Env).



Lemma transformEntries_lookup (draw : nat) (entries : list mongoDoc) (ts : list doc) :
  transformEntries env draw entries = Ok ts →
  length ts = length entries ∧
  ∀ (i : nat) (e : mongoDoc) (t : doc),
    entries !! i = Some e → ts !! i = Some t →
    transformEntry env (draw + i) e = Ok t.
Proof.
  revert draw ts. induction entries as [|e0 entries IH]; intros draw ts H; simpl in H.
  - injection H as <-. split; [reflexivity |]. intros i e t He. discriminate.
  - destruct (transformEntry env draw e0) as [t0|] eqn:H0; [| discriminate].
    destruct (transformEntries env (S draw) entries) as [ts0|] eqn:Hrest; [| discriminate].
    injection H as <-. destruct (IH _ _ Hrest) as [Hlen Hnth].
    split; [simpl; congruence |].
    intros [|i] e t He Ht; simpl in He, Ht.
    + injection He as <-. injection Ht as <-. rewrite Nat.add_0_r. exact H0.
    + replace (draw + S i)%nat with (S draw + i)%nat by lia. eapply Hnth; eassumption.
Qed.



End ObEntryProperties.



(** ** Creator references and the default identity *)

Section CreatorProperties.
Context {St : Type} (storage : Storage St) (schema : Schemas).

(** C9. Whatever the validated body holds and whoever the session belongs
    to, the case, the license plate and the report handed to the store
    carry the creator reference 1 ([createdById], [addedById],
    [requestedBy]), and the session has no influence on the outcome. *)
Theorem creator_reference_is_1 (req : request) (σ : St) :
  (∀ caseData, insertCaseSchema schema (req_body req) = Ok caseData →
     caseToCreate caseData !! "createdById" = Some (VNum 1) ∧
     postCase storage schema req σ
     = match createCase storage (caseToCreate caseData) σ with
       | (Ok newCase, σ') => (Reply 201 (VObj {[ "case" := newCase ]}), σ')
       | (Throw _, σ') => (Reply 400 (message "Invalid input"), σ')
       end) ∧
  (∀ plateData, insertLicensePlateSchema schema (req_body req) = Ok plateData →
     plateToCreate plateData !! "addedById" = Some (VNum 1) ∧
     postLicensePlate storage schema req σ
     = match createLicensePlate storage (plateToCreate plateData) σ with
       | (Ok newPlate, σ') => (Reply 201 (VObj {[ "licensePlate" := newPlate ]}), σ')
       | (Throw _, σ') => (Reply 400 (message "Invalid input"), σ')
       end) ∧
  (∀ reportData, insertReportSchema schema (req_body req) = Ok reportData →
     reportToCreate reportData !! "requestedBy" = Some (VNum 1) ∧
     postReport storage schema req σ
     = match createReport storage (reportToCreate reportData) σ with
       | (Ok newReport, σ') => (Reply 201 newReport, σ')
       | (Throw _, σ') => (Reply 400 (message "Invalid report data"), σ')
       end) ∧
  (∀ s, postCase storage schema (with_session s req) σ = postCase storage schema req σ ∧
        postLicensePlate storage schema (with_session s req) σ
        = postLicensePlate storage schema req σ ∧
        postReport storage schema (with_session s req) σ
        = postReport storage schema req σ).
Proof.
  split; [| split; [| split]].
  - intros d Hd. split; [apply lookup_insert_eq |].
    unfold postCase. unfold_handler. rewrite Hd.
    destruct (createCase storage _ σ) as [[c|e] σ']; reflexivity.
  - intros d Hd. split; [apply lookup_insert_eq |].
    unfold postLicensePlate. unfold_handler. rewrite Hd.
    destruct (createLicensePlate storage _ σ) as [[c|e] σ']; reflexivity.
  - intros d Hd. split; [apply lookup_insert_eq |].
    unfold postReport. unfold_handler. rewrite Hd.
    destruct (createReport storage _ σ) as [[c|e] σ']; reflexivity.
  - intros s. split; [| split]; reflexivity.
Qed.

(** C10. Without a session user, PUT /api/profile updates the user with
    identifier 1: the reply is that of the update of user 1 (200 with the
    updated user, or 400), never 401. *)
Theorem putProfile_defaults_to_user_1 (req : request) (σ : St) (updates : doc) :
  truthy (userId (req_session req)) = false →
  updateProfileSchema schema (req_body req) = Ok updates →
  putProfile storage schema req σ
  = match updateUser storage (VNum 1) updates σ with
    | (Ok (Some u), σ') =>
        (Reply 200 (VObj {[ "user" := VObj (userWithoutPassword u) ]}), σ')
    | (Ok None, σ') => (Reply 400 (message "Invalid input"), σ')
    | (Throw _, σ') => (Reply 400 (message "Invalid input"), σ')
    end ∧
  status_of (putProfile storage schema req σ).1 ≠ Some 401.
Proof.
  intros Hnone Hparse.
  assert (Heq : putProfile storage schema req σ
                = match updateUser storage (VNum 1) updates σ with
                  | (Ok (Some u), σ') =>
                      (Reply 200 (VObj {[ "user" := VObj (userWithoutPassword u) ]}), σ')
                  | (Ok None, σ') => (Reply 400 (message "Invalid input"), σ')
                  | (Throw _, σ') => (Reply 400 (message "Invalid input"), σ')
                  end).
  { unfold putProfile. unfold_handler. rewrite Hparse. unfold js_or. rewrite Hnone.
    destruct (updateUser storage (VNum 1) updates σ) as [[[u|]|e] σ']; reflexivity. }
  split; [exact Heq |]. rewrite Heq.
  destruct (updateUser storage (VNum 1) updates σ) as [[[u|]|e] σ']; simpl; discriminate.
Qed.
End CreatorProperties.

(** A client in the session of user 7 submits a case, a plate and a report
    with creator references of its own. *)
Lemma creator_reference_is_1_witness :
  let s := mkSession (VNum 7) (VObj {[ "id" := VNum 7 ]}) in
  let req := Scenario.request_of
               [("title", VStr "Burglary"); ("createdById", VNum 99);
                ("addedById", VNum 99); ("requestedBy", VNum 99)] [] s in
  (λ d, d !! "createdById")
    <$> SpecStore.cases (postCase SpecStore.storage SpecStore.schemas req Scenario.seeded).2
  = [Some (VNum 1)] ∧
  (λ d, d !! "addedById")
    <$> SpecStore.plates
          (postLicensePlate SpecStore.storage SpecStore.schemas req Scenario.seeded).2
  = [Some (VNum 1)] ∧
  (λ d, d !! "requestedBy")
    <$> SpecStore.reports (postReport SpecStore.storage SpecStore.schemas req Scenario.seeded).2
  = [Some (VNum 1)].
Proof.
  intros s req.
  destruct (creator_reference_is_1 SpecStore.storage SpecStore.schemas req Scenario.seeded)
    as (Hcase & Hplate & Hreport & _).
  destruct (Hcase (spread (req_body req))) as [_ ->]; [vm_compute; reflexivity |].
  destruct (Hplate (spread (req_body req))) as [_ ->]; [vm_compute; reflexivity |].
  destruct (Hreport (spread (req_body req))) as [_ ->]; [vm_compute; reflexivity |].
  vm_compute. repeat split.
Defined.

(** A profile update sent without a session changes the administrator. *)
Lemma putProfile_defaults_to_user_1_witness :
  let req := Scenario.request_of [("firstName", VStr "Sys")] [] no_session in
  let '(r, σ') := putProfile SpecStore.storage SpecStore.schemas req Scenario.seeded in
  status_of r = Some 200 ∧
  (λ d, (d !! "id", d !! "firstName")) <$> SpecStore.users σ'
  = [(Some (VNum 1), Some (VStr "Sys"))].
Proof.
  intros req.
  rewrite (proj1 (putProfile_defaults_to_user_1 SpecStore.storage SpecStore.schemas req
                    Scenario.seeded (spread (req_body req)) eq_refl eq_refl)).
  vm_compute. split; reflexivity.
Defined.

(** * Further properties of the routes *)

(** Splits, in a hypothesis about the outcome of a handler, every call whose
    outcome decides the control flow, and drops the paths that contradict
    the hypothesis. *)
Ltac split_calls_in H :=
  repeat match type of H with
         | context [match ?x with _ => _ end] =>
             lazymatch x with
             | context [match _ with _ => _ end] => fail
             | _ => destruct x eqn:?; simpl in H; try discriminate H
             end
         end.

(** ** Login, sessions and the middleware *)

Section LoginOutcomes.
Context {St : Type} (storage : Storage St) (schema : Schemas).

(** Every path to a 200 reply. *)
Lemma login_200_inv (req : request) (σ σ' : St) (body : jsval) (s : session) :
  login storage schema req σ = (Reply 200 body, s, σ') →
  ∃ creds u σ1,
    loginSchema schema (req_body req) = Ok creds ∧
    getUserByUsername storage (prop creds "username") σ = (Ok (Some u), σ1) ∧
    (strict_eq (prop u "password") (prop creds "password") = true
     ∨ (prop u "username" = VStr "admin" ∧ prop creds "password" = VStr "admin123")) ∧
    truthy (prop u "isActive") = true ∧
    updateLastLogin storage (prop u "id") σ1 = (Ok tt, σ') ∧
    body = VObj {[ "user" := VObj (userWithoutPassword u) ]} ∧
    s = mkSession (prop u "id") (VObj u).
Proof.
  unfold login. unfold_handler. intros H.
  destruct (loginSchema schema (req_body req)) as [creds|e] eqn:Hparse; [| discriminate].
  destruct (getUserByUsername storage (prop creds "username") σ) as [[[u|]|e] σ1] eqn:Hfind;
    try discriminate.
  destruct (strict_eq (prop u "password") (prop creds "password")
            || strict_eq (prop u "username") (VStr "admin")
               && strict_eq (prop creds "password") (VStr "admin123")) eqn:Hvalid;
    simpl in H; [| discriminate].
  destruct (truthy (prop u "isActive")) eqn:Hactive; simpl in H; [| discriminate].
  destruct (updateLastLogin storage (prop u "id") σ1) as [[[]|e] σ2] eqn:Hlast;
    [| discriminate].
  injection H as <- <- <-.
  exists creds, u, σ1.
  split; [first [assumption | reflexivity] |].
  split; [first [assumption | reflexivity] |].
  split; [| auto].
  apply orb_true_iff in Hvalid as [Hpw | Hadmin]; [left; exact Hpw | right].
  apply andb_true_iff in Hadmin as [Hn Hp].
  apply strict_eq_str in Hn, Hp. split; assumption.
Qed.

(** X1. A login is answered with 200 only when the store returned a user
    for the submitted username, the submitted password is the stored one
    (or the pair [admin]/[admin123] is used), the account is active and the
    last-login update succeeded; the reply is that user without the
    password, and the session holds the user's identifier and the stored
    user. *)
Theorem login_200_only_with_checked_credentials
    (req : request) (σ σ' : St) (body : jsval) (s : session) :
  login storage schema req σ = (Reply 200 body, s, σ') →
  ∃ creds u σ1,
    loginSchema schema (req_body req) = Ok creds ∧
    getUserByUsername storage (prop creds "username") σ = (Ok (Some u), σ1) ∧
    (strict_eq (prop u "password") (prop creds "password") = true
     ∨ (prop u "username" = VStr "admin" ∧ prop creds "password" = VStr "admin123")) ∧
    truthy (prop u "isActive") = true ∧
    updateLastLogin storage (prop u "id") σ1 = (Ok tt, σ') ∧
    body = VObj {[ "user" := VObj (userWithoutPassword u) ]} ∧
    s = mkSession (prop u "id") (VObj u).
Proof. apply login_200_inv. Qed.

(** X2. A login that is not answered with 200 leaves the session as it was,
    and its reply is one of three fixed messages: 401 "Invalid credentials"
    (the same for an unknown user and for a wrong password), 403 "Account
    is deactivated", or 400 "Invalid input". *)
Theorem login_failure_leaves_session
    (req : request) (σ σ' : St) (r : reply) (s : session) :
  login storage schema req σ = (r, s, σ') →
  status_of r ≠ Some 200 →
  s = req_session req ∧
  (r = Reply 401 (message "Invalid credentials")
   ∨ r = Reply 403 (message "Account is deactivated")
   ∨ r = Reply 400 (message "Invalid input")).
Proof.
  unfold login. unfold_handler. intros H Hnot.
  split_calls_in H; injection H as <- <- <-; auto.
  contradiction Hnot. reflexivity.
Qed.

(** X3. A 403 reply is given only after the password check has passed: a
    deactivated account with a wrong password gets the 401 of any failed
    login. Nothing is written to the store on that path. *)
Theorem login_403_only_after_password_check
    (req : request) (σ σ' : St) (body : jsval) (s : session) :
  login storage schema req σ = (Reply 403 body, s, σ') →
  ∃ creds u,
    loginSchema schema (req_body req) = Ok creds ∧
    getUserByUsername storage (prop creds "username") σ = (Ok (Some u), σ') ∧
    (strict_eq (prop u "password") (prop creds "password") = true
     ∨ (prop u "username" = VStr "admin" ∧ prop creds "password" = VStr "admin123")) ∧
    truthy (prop u "isActive") = false.
Proof.
  unfold login. unfold_handler. intros H.
  destruct (loginSchema schema (req_body req)) as [creds|e] eqn:Hparse; [| discriminate].
  destruct (getUserByUsername storage (prop creds "username") σ) as [[[u|]|e] σ1] eqn:Hfind;
    try discriminate.
  destruct (strict_eq (prop u "password") (prop creds "password")
            || strict_eq (prop u "username") (VStr "admin")
               && strict_eq (prop creds "password") (VStr "admin123")) eqn:Hvalid;
    simpl in H; [| discriminate].
  destruct (truthy (prop u "isActive")) eqn:Hactive; simpl in H.
  - destruct (updateLastLogin storage (prop u "id") σ1) as [[[]|e] σ2]; discriminate.
  - injection H as <- <- <-. exists creds, u.
    split; [first [assumption | reflexivity] |].
    split; [first [assumption | reflexivity] |].
    split; [| assumption].
    apply orb_true_iff in Hvalid as [Hpw | Hadmin]; [left; exact Hpw | right].
    apply andb_true_iff in Hadmin as [Hn Hp].
    apply strict_eq_str in Hn, Hp. split; assumption.
Qed.

(** X4. With the session a successful login leaves, [requireAuth] lets a
    request through exactly when the user's identifier is truthy, and
    [requireAdmin] exactly when the stored user's role is "admin"; without
    a session they answer 401 and 403. *)
Theorem middleware_after_login
    (req next : request) (σ σ' : St) (body : jsval) (s : session) :
  login storage schema req σ = (Reply 200 body, s, σ') →
  ∃ u,
    user s = VObj u ∧
    (requireAuth (with_session s next) = Next ↔ truthy (prop u "id") = true) ∧
    (requireAdmin (with_session s next) = Next ↔ prop u "role" = VStr "admin") ∧
    requireAuth (with_session no_session next)
    = Answer (Reply 401 (message "Authentication required")) ∧
    requireAdmin (with_session no_session next)
    = Answer (Reply 403 (message "Admin access required")).
Proof.
  intros H. apply login_200_inv in H as (creds & u & σ1 & _ & _ & _ & _ & _ & _ & ->).
  exists u. split; [reflexivity |].
  unfold requireAuth, requireAdmin. simpl.
  split; [| split; [| split; reflexivity]].
  - destruct (truthy (prop u "id")); simpl; split; intros; congruence.
  - destruct (strict_eq (prop u "role") (VStr "admin")) eqn:E; simpl.
    + apply strict_eq_str in E. split; intros; [assumption | reflexivity].
    + split; [discriminate |]. intros Hrole. apply strict_eq_str in Hrole. congruence.
Qed.
End LoginOutcomes.

(** The administrator logs in on the seeded store. *)
Lemma login_200_only_with_checked_credentials_witness :
  let u := SpecStore.stored_form 1 1000 adminUser in
  ∃ creds u' σ1,
    loginSchema SpecStore.schemas (req_body Scenario.login_admin123) = Ok creds ∧
    getUserByUsername SpecStore.storage (prop creds "username") Scenario.seeded
    = (Ok (Some u'), σ1) ∧
    (strict_eq (prop u' "password") (prop creds "password") = true
     ∨ (prop u' "username" = VStr "admin" ∧ prop creds "password" = VStr "admin123")) ∧
    truthy (prop u' "isActive") = true ∧
    updateLastLogin SpecStore.storage (prop u' "id") σ1
    = (Ok tt, (SpecStore.touch "lastLogin" (VNum 1) Scenario.seeded).2) ∧
    VObj {[ "user" := VObj (userWithoutPassword u) ]}
    = VObj {[ "user" := VObj (userWithoutPassword u') ]} ∧
    mkSession (VNum 1) (VObj u) = mkSession (prop u' "id") (VObj u').
Proof.
  intros u.
  apply (login_200_only_with_checked_credentials SpecStore.storage SpecStore.schemas
           Scenario.login_admin123 Scenario.seeded).
  vm_compute; reflexivity.
Defined.

(** A wrong password for the administrator on the seeded store. *)
Lemma login_failure_leaves_session_witness :
  let req := Scenario.request_of
               [("username", VStr "admin"); ("password", VStr "guess")] []
               (mkSession (VNum 7) (VObj {[ "id" := VNum 7 ]})) in
  (login SpecStore.storage SpecStore.schemas req Scenario.seeded).1.2 = req_session req ∧
  ((login SpecStore.storage SpecStore.schemas req Scenario.seeded).1.1
   = Reply 401 (message "Invalid credentials")
   ∨ (login SpecStore.storage SpecStore.schemas req Scenario.seeded).1.1
     = Reply 403 (message "Account is deactivated")
   ∨ (login SpecStore.storage SpecStore.schemas req Scenario.seeded).1.1
     = Reply 400 (message "Invalid input")).
Proof.
  intros req.
  apply (login_failure_leaves_session SpecStore.storage SpecStore.schemas req
           Scenario.seeded
           (login SpecStore.storage SpecStore.schemas req Scenario.seeded).2).
  - destruct (login SpecStore.storage SpecStore.schemas req Scenario.seeded) as [[r s] σ'].
    reflexivity.
  - vm_compute. discriminate.
Defined.

(** The deactivated account logs in with its own password. *)
Lemma login_403_only_after_password_check_witness :
  ∃ creds u,
    loginSchema SpecStore.schemas (req_body Fixture.login_eve) = Ok creds ∧
    getUserByUsername SpecStore.storage (prop creds "username") Fixture.with_inactive
    = (Ok (Some u), Fixture.with_inactive) ∧
    (strict_eq (prop u "password") (prop creds "password") = true
     ∨ (prop u "username" = VStr "admin" ∧ prop creds "password" = VStr "admin123")) ∧
    truthy (prop u "isActive") = false.
Proof.
  apply (login_403_only_after_password_check SpecStore.storage SpecStore.schemas
           Fixture.login_eve Fixture.with_inactive Fixture.with_inactive
           (message "Account is deactivated") no_session).
  vm_compute; reflexivity.
Defined.

(** The administrator passes both gates after logging in. *)
Lemma middleware_after_login_witness :
  let u := SpecStore.stored_form 1 1000 adminUser in
  let s := mkSession (VNum 1) (VObj u) in
  let next := Scenario.request_of [] [] no_session in
  requireAuth (with_session s next) = Next ∧ requireAdmin (with_session s next) = Next.
Proof.
  intros u s next.
  destruct (middleware_after_login SpecStore.storage SpecStore.schemas
              Scenario.login_admin123 next Scenario.seeded
              (SpecStore.touch "lastLogin" (VNum 1) Scenario.seeded).2
              (VObj {[ "user" := VObj (userWithoutPassword u) ]}) s)
    as (u' & Hu & Hauth & Hadmin & _).
  - vm_compute; reflexivity.
  - injection Hu as <-. split.
    + apply Hauth. vm_compute; reflexivity.
    + apply Hadmin. vm_compute; reflexivity.
Defined.

(** ** Registration, password reset and user lookups *)

Section AccountRoutes.
Context {St : Type} (storage : Storage St) (schema : Schemas).

(** X5. A registration is answered with 201 only when neither the username
    nor the email was found; the user handed to the store is the validated
    body without [confirmPassword], its password exactly as submitted, and
    the reply is the created user without the password. *)
Theorem register_201_creates_fresh_user
    (req : request) (σ σ' : St) (body : jsval) :
  register storage schema req σ = (Reply 201 body, σ') →
  ∃ userData σ1 σ2 newUser,
    registerSchema schema (req_body req) = Ok userData ∧
    getUserByUsername storage (prop userData "username") σ = (Ok None, σ1) ∧
    getUserByEmail storage (prop userData "email") σ1 = (Ok None, σ2) ∧
    createUser storage (delete "confirmPassword" userData) σ2 = (Ok newUser, σ') ∧
    delete "confirmPassword" userData !! "confirmPassword" = None ∧
    delete "confirmPassword" userData !! "password" = userData !! "password" ∧
    body = VObj {[ "user" := VObj (userWithoutPassword newUser) ]}.
Proof.
  unfold register. unfold_handler. intros H.
  destruct (registerSchema schema (req_body req)) as [userData|e] eqn:Hparse;
    [| discriminate].
  destruct (getUserByUsername storage (prop userData "username") σ)
    as [[[u|]|e] σ1] eqn:Hname; try discriminate.
  destruct (getUserByEmail storage (prop userData "email") σ1)
    as [[[u|]|e] σ2] eqn:Hmail; try discriminate.
  destruct (createUser storage (delete "confirmPassword" userData) σ2)
    as [[newUser|e] σ3] eqn:Hcreate; [| discriminate].
  injection H as <- <-. exists userData, σ1, σ2, newUser.
  split; [first [assumption | reflexivity] |].
  split; [first [assumption | reflexivity] |].
  split; [first [assumption | reflexivity] |].
  split; [first [assumption | reflexivity] |].
  split; [apply lookup_delete_eq |].
  split; [apply lookup_delete_ne; discriminate | reflexivity].
Qed.

(** X6. A 409 reply means a lookup found a user, and nothing was created:
    the username is looked up first, the email only when the username is
    free, and the state is the one the last lookup left. *)
Theorem register_409_creates_nothing
    (req : request) (σ σ' : St) (body : jsval) :
  register storage schema req σ = (Reply 409 body, σ') →
  ∃ userData,
    registerSchema schema (req_body req) = Ok userData ∧
    ((∃ u, getUserByUsername storage (prop userData "username") σ = (Ok (Some u), σ') ∧
           body = message "Username already exists")
     ∨ (∃ u σ1, getUserByUsername storage (prop userData "username") σ = (Ok None, σ1) ∧
                getUserByEmail storage (prop userData "email") σ1 = (Ok (Some u), σ') ∧
                body = message "Email already exists")).
Proof.
  unfold register. unfold_handler. intros H.
  destruct (registerSchema schema (req_body req)) as [userData|e] eqn:Hparse;
    [| discriminate].
  exists userData. split; [reflexivity |].
  destruct (getUserByUsername storage (prop userData "username") σ)
    as [[[u|]|e] σ1] eqn:Hname; try discriminate.
  - injection H as <- <-. left. exists u. split; reflexivity.
  - destruct (getUserByEmail storage (prop userData "email") σ1)
      as [[[u|]|e] σ2] eqn:Hmail; try discriminate.
    + injection H as <- <-. right. exists u, σ1. split; [reflexivity |].
      split; [assumption | reflexivity].
    + destruct (createUser storage (delete "confirmPassword" userData) σ2)
        as [[newUser|e] σ3]; discriminate.
Qed.

(** X7. A password reset is answered with 200 only when the token was
    found; the password of the user the token names is then set to the
    submitted one and the token is deleted, in this order. An unknown token
    is answered with 400 "Invalid or expired token" and no password is
    touched. *)
Theorem resetPassword_uses_the_token
    (req : request) (σ σ' : St) (body : jsval) (parsed : doc) :
  resetPasswordSchema schema (req_body req) = Ok parsed →
  resetPassword storage schema req σ = (Reply 200 body, σ') →
  ∃ resetData σ1 σ2,
    getPasswordResetToken storage (prop parsed "token") σ = (Ok (Some resetData), σ1) ∧
    updateUserPassword storage (prop resetData "userId") (prop parsed "password") σ1
    = (Ok tt, σ2) ∧
    deletePasswordResetToken storage (prop parsed "token") σ2 = (Ok tt, σ') ∧
    body = message "Password updated successfully".
Proof.
  unfold resetPassword. unfold_handler. intros Hparse H. rewrite Hparse in H.
  destruct (getPasswordResetToken storage (prop parsed "token") σ)
    as [[[r|]|e] σ1] eqn:Htoken; try discriminate.
  destruct (updateUserPassword storage (prop r "userId") (prop parsed "password") σ1)
    as [[[]|e] σ2] eqn:Hupd; [| discriminate].
  destruct (deletePasswordResetToken storage (prop parsed "token") σ2)
    as [[[]|e] σ3] eqn:Hdel; [| discriminate].
  injection H as <- <-. exists r, σ1, σ2.
  split; [reflexivity |]. split; [assumption |]. split; [assumption | reflexivity].
Qed.

Lemma resetPassword_unknown_token
    (req : request) (σ σ1 : St) (parsed : doc) :
  resetPasswordSchema schema (req_body req) = Ok parsed →
  getPasswordResetToken storage (prop parsed "token") σ = (Ok None, σ1) →
  resetPassword storage schema req σ
  = (Reply 400 (message "Invalid or expired token"), σ1).
Proof.
  intros Hparse Htoken. unfold resetPassword. unfold_handler.
  rewrite Hparse, Htoken. reflexivity.
Qed.

(** X8. GET /api/auth/me answers 200 only with the user stored under the
    session's identifier, or under 1 when the session has none, and sends
    that user without the password; it never answers 401. *)
Theorem me_falls_back_to_user_1 (req : request) (σ σ' : St) (r : reply) :
  me storage req σ = (r, σ') →
  status_of r ≠ Some 401 ∧
  (∀ body, r = Reply 200 body →
     ∃ u, getUser storage (js_or (userId (req_session req)) (VNum 1)) σ = (Ok (Some u), σ') ∧
          body = VObj {[ "user" := VObj (userWithoutPassword u) ]} ∧
          (truthy (userId (req_session req)) = false →
           getUser storage (VNum 1) σ = (Ok (Some u), σ'))).
Proof.
  unfold me. unfold_handler. intros H.
  destruct (getUser storage (js_or (userId (req_session req)) (VNum 1)) σ)
    as [[[u|]|e] σ1] eqn:Hget; injection H as <- <-.
  - split; [discriminate |]. intros body [= <-]. exists u.
    split; [reflexivity |]. split; [reflexivity |].
    intros Hnone. unfold js_or in Hget. rewrite Hnone in Hget. exact Hget.
  - split; [discriminate |]. intros body [=].
  - split; [discriminate |]. intros body [=].
Qed.

(** Removing the password removes nothing else. *)
Lemma userWithoutPassword_keeps (u : doc) (k : string) :
  k ≠ "password" → userWithoutPassword u !! k = u !! k.
Proof. intros Hk. apply lookup_delete_ne. congruence. Qed.

(** X9. GET /api/users sends the stored users in the order of the store,
    one object per user, each with every field of the stored user except
    the password. *)
Theorem getUsers_sends_every_user_once (req : request) (σ σ' : St) (body : jsval) :
  getUsers storage req σ = (Reply 200 body, σ') →
  ∃ users sent,
    getAllUsers storage σ = (Ok users, σ') ∧
    body = VObj {[ "users" := VArr sent ]} ∧
    length sent = length users ∧
    ∀ (i : nat) (u : doc), users !! i = Some u →
      ∃ u', sent !! i = Some (VObj u') ∧
            u' !! "password" = None ∧
            ∀ k, k ≠ "password" → u' !! k = u !! k.
Proof.
  unfold getUsers. unfold_handler. intros H.
  destruct (getAllUsers storage σ) as [[users|e] σ1] eqn:Hall; [| discriminate].
  injection H as <- <-.
  exists users, (map (fun u => VObj (delete "password" u)) users).
  split; [reflexivity |]. split; [reflexivity |].
  split; [apply length_map |].
  intros i u Hu. exists (delete "password" u).
  split; [| split; [apply lookup_delete_eq | intros k Hk; apply lookup_delete_ne; congruence]].
  change (map (fun u0 : doc => VObj (delete "password" u0)) users)
    with ((fun u0 : doc => VObj (delete "password" u0)) <$> users).
  rewrite list_lookup_fmap, Hu. reflexivity.
Qed.
End AccountRoutes.

(** The registration of the second account on the seeded store. *)
Lemma register_201_creates_fresh_user_witness :
  ∃ userData σ1 σ2 newUser,
    registerSchema SpecStore.schemas (VObj Fixture.eve_data) = Ok userData ∧
    getUserByUsername SpecStore.storage (prop userData "username") Scenario.seeded
    = (Ok None, σ1) ∧
    getUserByEmail SpecStore.storage (prop userData "email") σ1 = (Ok None, σ2) ∧
    createUser SpecStore.storage (delete "confirmPassword" userData) σ2
    = (Ok newUser, Fixture.with_inactive) ∧
    delete "confirmPassword" userData !! "confirmPassword" = None ∧
    delete "confirmPassword" userData !! "password" = userData !! "password" ∧
    VObj {[ "user" := VObj (userWithoutPassword Fixture.eve) ]}
    = VObj {[ "user" := VObj (userWithoutPassword newUser) ]}.
Proof.
  apply (register_201_creates_fresh_user SpecStore.storage SpecStore.schemas
           (mkRequest (VObj Fixture.eve_data) ∅ no_session) Scenario.seeded).
  vm_compute; reflexivity.
Defined.

(** A registration under the administrator's username. *)
Lemma register_409_creates_nothing_witness :
  let req := Scenario.request_of
               [("username", VStr "admin"); ("email", VStr "other@police.gov");
                ("password", VStr "x")] [] no_session in
  ∃ userData,
    registerSchema SpecStore.schemas (req_body req) = Ok userData ∧
    ((∃ u, getUserByUsername SpecStore.storage (prop userData "username") Scenario.seeded
           = (Ok (Some u), Scenario.seeded) ∧
           message "Username already exists" = message "Username already exists")
     ∨ (∃ u σ1, getUserByUsername SpecStore.storage (prop userData "username")
                  Scenario.seeded = (Ok None, σ1) ∧
                getUserByEmail SpecStore.storage (prop userData "email") σ1
                = (Ok (Some u), Scenario.seeded) ∧
                message "Username already exists" = message "Email already exists")).
Proof.
  intros req.
  apply (register_409_creates_nothing SpecStore.storage SpecStore.schemas req
           Scenario.seeded).
  vm_compute; reflexivity.
Defined.

(** The administrator sets a new password with the token issued before. *)
Lemma resetPassword_uses_the_token_witness :
  let parsed : doc :=
    list_to_map [("token", VStr (randomHex SpecStore.env)); ("password", VStr "n3w-s3cret")] in
  ∃ resetData σ1 σ2,
    getPasswordResetToken SpecStore.storage (prop parsed "token") Fixture.with_token
    = (Ok (Some resetData), σ1) ∧
    updateUserPassword SpecStore.storage (prop resetData "userId") (prop parsed "password") σ1
    = (Ok tt, σ2) ∧
    deletePasswordResetToken SpecStore.storage (prop parsed "token") σ2
    = (Ok tt, (resetPassword SpecStore.storage SpecStore.schemas Fixture.reset_request
                 Fixture.with_token).2) ∧
    message "Password updated successfully" = message "Password updated successfully".
Proof.
  intros parsed.
  apply (resetPassword_uses_the_token SpecStore.storage SpecStore.schemas
           Fixture.reset_request Fixture.with_token _ _ parsed).
  - vm_compute; reflexivity.
  - vm_compute; reflexivity.
Defined.

(** /me without a session on the seeded store gives the administrator. *)
Lemma me_falls_back_to_user_1_witness :
  let req := Scenario.request_of [] [] no_session in
  let u := SpecStore.stored_form 1 1000 adminUser in
  status_of (Reply 200 (VObj {[ "user" := VObj (userWithoutPassword u) ]})) ≠ Some 401 ∧
  ∃ u', getUser SpecStore.storage (VNum 1) Scenario.seeded = (Ok (Some u'), Scenario.seeded) ∧
        VObj {[ "user" := VObj (userWithoutPassword u) ]}
        = VObj {[ "user" := VObj (userWithoutPassword u') ]}.
Proof.
  intros req u.
  destruct (me_falls_back_to_user_1 SpecStore.storage req Scenario.seeded Scenario.seeded
              (Reply 200 (VObj {[ "user" := VObj (userWithoutPassword u) ]})))
    as [Hnot Hbody].
  - vm_compute; reflexivity.
  - split; [exact Hnot |].
    destruct (Hbody _ eq_refl) as (u' & _ & Heq & Hone).
    exists u'. split; [apply Hone; reflexivity | exact Heq].
Defined.

(** The two users of the store are listed. *)
Lemma getUsers_sends_every_user_once_witness :
  let req := Scenario.request_of [] [] no_session in
  ∃ users sent,
    getAllUsers SpecStore.storage Fixture.with_inactive = (Ok users, Fixture.with_inactive) ∧
    body_of (getUsers SpecStore.storage req Fixture.with_inactive).1
    = VObj {[ "users" := VArr sent ]} ∧
    length sent = length users ∧
    ∀ (i : nat) (u : doc), users !! i = Some u →
      ∃ u', sent !! i = Some (VObj u') ∧
            u' !! "password" = None ∧
            ∀ k, k ≠ "password" → u' !! k = u !! k.
Proof.
  intros req.
  apply (getUsers_sends_every_user_once SpecStore.storage req Fixture.with_inactive).
  vm_compute; reflexivity.
Defined.

(** ** Geofiles and vehicle locations *)

Lemma split_on_cons (c : ascii) (s : string) :
  ∃ piece pieces, split_on c s = piece :: pieces.
Proof.
  destruct s as [|a r]; simpl; [eauto |].
  destruct (Ascii.eqb a c); [eauto |].
  destruct (split_on c r); eauto.
Qed.

(** Joining the pieces with the separator gives the string back. *)
Lemma concat_split_on (c : ascii) (s : string) :
  String.concat (String c EmptyString) (split_on c s) = s.
Proof.
  induction s as [|a r IH]; [reflexivity |].
  simpl split_on. destruct (Ascii.eqb a c) eqn:Hac.
  - apply Ascii.eqb_eq in Hac. subst a.
    destruct (split_on_cons c r) as (p & ps & Hsplit).
    rewrite Hsplit in *. simpl in *. rewrite IH. reflexivity.
  - destruct (split_on_cons c r) as (p & ps & Hsplit).
    rewrite Hsplit in *. simpl in *. destruct ps as [|q qs].
    + rewrite IH. reflexivity.
    + simpl. rewrite <- IH. reflexivity.
Qed.

(** No piece contains the separator. *)
Lemma split_on_pieces (c : ascii) (s : string) :
  Forall (fun piece => has_char c piece = false) (split_on c s).
Proof.
  induction s as [|a r IH]; simpl; [repeat constructor |].
  destruct (Ascii.eqb a c) eqn:Hac; [constructor; [reflexivity | exact IH] |].
  destruct (split_on c r) as [|p ps]; [repeat constructor; simpl; rewrite Hac; reflexivity |].
  inversion IH as [|? ? Hp Hps]; subst. constructor; [| exact Hps].
  simpl. rewrite Hac, Hp. reflexivity.
Qed.

(** One more piece than separators. *)
Lemma split_on_length (c : ascii) (s : string) :
  length (split_on c s)
  = S (length (List.filter (fun a => Ascii.eqb a c) (list_ascii_of_string s))).
Proof.
  induction s as [|a r IH]; [reflexivity |].
  simpl. destruct (Ascii.eqb a c); simpl; [rewrite IH; reflexivity |].
  destruct (split_on c r); simpl in *; [discriminate | exact IH].
Qed.

Section GeofileRoutes.
Context {St : Type} (storage : GeoStorage St) (engine : Engine).

(** X10. A non-empty [tags] query string reaches the store as the array of
    its comma-separated pieces: no piece contains a comma, joining them
    with commas gives the query string back, and there is one more piece
    than commas (empty pieces are kept). *)
Theorem listGeofiles_splits_tags (query : doc) (σ : St) (s : string) :
  prop query "tags" = VStr s → s ≠ "" →
  ∃ pieces,
    String.concat "," pieces = s ∧
    Forall (fun piece => has_char "," piece = false) pieces ∧
    length pieces
    = S (length (List.filter (fun a => Ascii.eqb a ",") (list_ascii_of_string s))) ∧
    geofileFilter query (VArr (map VStr pieces)) !! "tags" = Some (VArr (map VStr pieces)) ∧
    listGeofiles storage query σ
    = match getGeofiles storage (geofileFilter query (VArr (map VStr pieces))) σ with
      | (Ok geofiles, σ') => (Reply 200 (VObj {[ "geofiles" := geofiles ]}), σ')
      | (Throw _, σ') => (Reply 500 (message "Failed to fetch geofiles"), σ')
      end.
Proof.
  intros Htags Hne. exists (split_on "," s).
  split; [apply concat_split_on |].
  split; [apply split_on_pieces |].
  split; [apply split_on_length |].
  split.
  - unfold geofileFilter, list_to_map. simpl foldr.
    rewrite !lookup_insert_ne by discriminate. apply lookup_insert_eq.
  - unfold listGeofiles, tagsFilter. unfold_handler. rewrite Htags.
    assert (Htruthy : truthy (VStr s) = true).
    { simpl. destruct (String.eqb s "") eqn:E; [| reflexivity].
      apply String.eqb_eq in E. contradiction. }
    rewrite Htruthy.
    destruct (getGeofiles storage _ σ) as [[g|e] σ']; reflexivity.
Qed.

(** X11. When [tags] is missing or empty no tag filter is passed; when it
    is an array or an object (a repeated or bracketed parameter) the
    listing fails with 500 and the store is not asked. *)
Theorem listGeofiles_without_tag_string (query : doc) (σ : St) :
  (truthy (prop query "tags") = false →
   geofileFilter query VUndefined !! "tags" = Some VUndefined ∧
   listGeofiles storage query σ
   = match getGeofiles storage (geofileFilter query VUndefined) σ with
     | (Ok geofiles, σ') => (Reply 200 (VObj {[ "geofiles" := geofiles ]}), σ')
     | (Throw _, σ') => (Reply 500 (message "Failed to fetch geofiles"), σ')
     end) ∧
  (truthy (prop query "tags") = true → (∀ s, prop query "tags" ≠ VStr s) →
   listGeofiles storage query σ = (Reply 500 (message "Failed to fetch geofiles"), σ)).
Proof.
  split.
  - intros Hfalsy. split.
    + unfold geofileFilter, list_to_map. simpl foldr.
      rewrite !lookup_insert_ne by discriminate. apply lookup_insert_eq.
    + unfold listGeofiles, tagsFilter. unfold_handler. rewrite Hfalsy.
      destruct (getGeofiles storage _ σ) as [[g|e] σ']; reflexivity.
  - intros Htruthy Hnot. unfold listGeofiles, tagsFilter. unfold_handler.
    rewrite Htruthy. destruct (prop query "tags") eqn:E; try reflexivity.
    exfalso. eapply Hnot. reflexivity.
Qed.

(** X12. The filter handed to the store has the six properties [search],
    [fileType] (the query's [type]), [tags], [accessLevel], [dateFrom] and
    [dateTo], and no other: no other query parameter reaches the store. *)
Theorem geofileFilter_has_six_properties (query : doc) (tags : jsval) (k : string) :
  geofileFilter query tags !! "fileType" = Some (prop query "type") ∧
  (k ∉ ["search"; "fileType"; "tags"; "accessLevel"; "dateFrom"; "dateTo"] →
   geofileFilter query tags !! k = None) ∧
  (k ∈ ["search"; "fileType"; "tags"; "accessLevel"; "dateFrom"; "dateTo"] →
   is_Some (geofileFilter query tags !! k)).
Proof.
  unfold geofileFilter, list_to_map. simpl foldr. split; [| split].
  - rewrite !lookup_insert_ne by discriminate. apply lookup_insert_eq.
  - intros Hk. rewrite !not_elem_of_cons in Hk.
    destruct Hk as (? & ? & ? & ? & ? & ? & _).
    rewrite !lookup_insert_ne by congruence. apply lookup_empty.
  - intros Hk. rewrite !elem_of_cons in Hk.
    destruct Hk as [-> | [-> | [-> | [-> | [-> | [-> | Hk]]]]]];
      [.. | inversion Hk];
      rewrite ?lookup_insert_ne by discriminate; rewrite lookup_insert_eq; eauto.
Qed.


(** A download or a read of a geofile the store does not have is answered
    with 404, and neither the counter nor the access time is touched: the
    state is the one the lookup left. *)
Lemma missing_geofile_is_not_counted (req : request) (σ σ1 : St) (geofile : jsval) :
  getGeofile storage (parseInt engine (param req "id")) σ = (Ok geofile, σ1) →
  truthy geofile = false →
  downloadGeofile storage engine req σ = (Reply 404 (message "Geofile not found"), σ1) ∧
  getGeofileRoute storage engine req σ = (Reply 404 (message "Geofile not found"), σ1).
Proof.
  intros Hget Hg. unfold downloadGeofile, getGeofileRoute. unfold_handler.
  rewrite Hget, Hg. split; reflexivity.
Qed.

(** X14. GET /api/geofiles/:id answers 200 with the geofile as it was read
    before the access time was updated, and only when that update
    succeeded. *)
Theorem getGeofileRoute_sends_what_was_read (req : request) (σ σ' : St) (body : jsval) :
  getGeofileRoute storage engine req σ = (Reply 200 body, σ') →
  ∃ σ1,
    getGeofile storage (parseInt engine (param req "id")) σ = (Ok body, σ1) ∧
    truthy body = true ∧
    updateGeofileAccess storage (parseInt engine (param req "id")) σ1 = (Ok tt, σ').
Proof.
  unfold getGeofileRoute. unfold_handler. intros H.
  destruct (getGeofile storage (parseInt engine (param req "id")) σ) as [[g|e] σ1] eqn:Hget;
    [| discriminate].
  destruct (truthy g) eqn:Hg; simpl in H; [| discriminate].
  destruct (updateGeofileAccess storage (parseInt engine (param req "id")) σ1)
    as [[[]|e] σ2] eqn:Hacc; [| discriminate].
  injection H as <- <-. exists σ1. split; [reflexivity |]. split; assumption.
Qed.

(** The guard of the location route lets through the two-element arrays
    and nothing else. *)
Lemma location_guard (v : jsval) :
  negb (truthy v) || negb (isArray v) || negb (array_length v =? 2) = false
  ↔ ∃ x y, v = VArr [x; y].
Proof.
  split.
  - destruct v as [| | | | | | |l|];
      try (simpl; rewrite ?orb_true_r; discriminate).
    cbn [truthy isArray array_length negb orb]. intros H.
    apply negb_false_iff, Z.eqb_eq in H.
    destruct l as [|x [|y [|z l]]]; simpl length in H; try lia. eauto.
  - intros (x & y & ->). reflexivity.
Qed.

(** X15. A vehicle location reaches the store exactly when it is an array
    of two elements, whatever the elements are; any other body is answered
    with 400 and the store is not asked. *)
Theorem patchVehicleLocation_wants_a_pair (req : request) (σ : St) :
  (∀ x y, prop (spread (req_body req)) "location" = VArr [x; y] →
     patchVehicleLocation storage engine req σ
     = match updateVehicleLocation storage (parseInt engine (param req "id")) (VArr [x; y]) σ with
       | (Ok updatedVehicle, σ') => (Reply 200 updatedVehicle, σ')
       | (Throw _, σ') => (Reply 400 (message "Failed to update vehicle location"), σ')
       end) ∧
  ((∀ x y, prop (spread (req_body req)) "location" ≠ VArr [x; y]) →
   ∃ m, patchVehicleLocation storage engine req σ = (Reply 400 (message m), σ)).
Proof.
  split.
  - intros x y Hloc. unfold patchVehicleLocation. unfold_handler.
    destruct (req_body req) as [| | | | | | | |o] eqn:Hbody;
      try (unfold prop in Hloc; simpl in Hloc; rewrite lookup_empty in Hloc; discriminate).
    simpl in *. rewrite Hloc. simpl.
    destruct (updateVehicleLocation storage _ _ σ) as [[v|e] σ']; reflexivity.
  - intros Hnot. unfold patchVehicleLocation. unfold_handler.
    destruct (destructure (req_body req)) as [b|e] eqn:Hb; [| eexists; reflexivity].
    assert (Hsame : prop b "location" = prop (spread (req_body req)) "location").
    { destruct (req_body req); simpl in Hb; try discriminate;
        injection Hb as <-; reflexivity. }
    destruct (negb (truthy (prop b "location")) || negb (isArray (prop b "location"))
              || negb (array_length (prop b "location") =? 2)) eqn:Hguard.
    + eexists. reflexivity.
    + apply location_guard in Hguard as (x & y & Hxy).
      exfalso. apply (Hnot x y). rewrite <- Hsame. exact Hxy.
Qed.
End GeofileRoutes.

(** The query [tags=crime,,map]. *)
Lemma listGeofiles_splits_tags_witness :
  let query : doc := {[ "tags" := VStr "crime,,map" ]} in
  ∃ pieces,
    String.concat "," pieces = "crime,,map" ∧
    Forall (fun piece => has_char "," piece = false) pieces ∧
    length pieces
    = S (length (List.filter (fun a => Ascii.eqb a ",") (list_ascii_of_string "crime,,map"))) ∧
    geofileFilter query (VArr (map VStr pieces)) !! "tags" = Some (VArr (map VStr pieces)) ∧
    listGeofiles Recorder.storage query []
    = match getGeofiles Recorder.storage (geofileFilter query (VArr (map VStr pieces))) [] with
      | (Ok geofiles, σ') => (Reply 200 (VObj {[ "geofiles" := geofiles ]}), σ')
      | (Throw _, σ') => (Reply 500 (message "Failed to fetch geofiles"), σ')
      end.
Proof.
  intros query.
  apply (listGeofiles_splits_tags Recorder.storage query [] "crime,,map").
  - vm_compute; reflexivity.
  - discriminate.
Defined.

(** No [tags] parameter, and a [tags] parameter given twice. *)
Lemma listGeofiles_without_tag_string_witness :
  let repeated : doc := {[ "tags" := VArr [VStr "crime"; VStr "map"] ]} in
  geofileFilter ∅ VUndefined !! "tags" = Some VUndefined ∧
  listGeofiles Recorder.storage repeated []
  = (Reply 500 (message "Failed to fetch geofiles"), []).
Proof.
  intros repeated. split.
  - apply (proj1 (listGeofiles_without_tag_string Recorder.storage ∅ [])).
    vm_compute; reflexivity.
  - apply (proj2 (listGeofiles_without_tag_string Recorder.storage repeated [])).
    + vm_compute; reflexivity.
    + intros s. vm_compute. discriminate.
Defined.

(** A query parameter [uploadedBy] is not part of the filter. *)
Lemma geofileFilter_has_six_properties_witness :
  let query : doc := {[ "uploadedBy" := VStr "7" ]} in
  geofileFilter query VUndefined !! "uploadedBy" = None ∧
  is_Some (geofileFilter query VUndefined !! "dateTo").
Proof.
  intros query. split.
  - apply (geofileFilter_has_six_properties query VUndefined "uploadedBy").
    rewrite !not_elem_of_cons. repeat split; try discriminate. apply not_elem_of_nil.
  - apply (geofileFilter_has_six_properties query VUndefined "dateTo").
    rewrite !elem_of_cons. tauto.
Defined.


(** Geofile 9 does not exist: only the lookup is recorded. *)
Lemma missing_geofile_is_not_counted_witness :
  let req := Scenario.request_of [] [("id", "9")] no_session in
  downloadGeofile Recorder.storage Scenario.engine req []
  = (Reply 404 (message "Geofile not found"), [("getGeofile", [VNum 9])]) ∧
  getGeofileRoute Recorder.storage Scenario.engine req []
  = (Reply 404 (message "Geofile not found"), [("getGeofile", [VNum 9])]).
Proof.
  intros req.
  apply (missing_geofile_is_not_counted Recorder.storage Scenario.engine req [] _ VUndefined).
  - vm_compute; reflexivity.
  - reflexivity.
Defined.

(** Geofile 1 is read. *)
Lemma getGeofileRoute_sends_what_was_read_witness :
  let req := Scenario.request_of [] [("id", "1")] no_session in
  ∃ σ1,
    getGeofile Recorder.storage (parseInt Scenario.engine (param req "id")) []
    = (Ok (VObj Recorder.sample_geofile), σ1) ∧
    truthy (VObj Recorder.sample_geofile) = true ∧
    updateGeofileAccess Recorder.storage (parseInt Scenario.engine (param req "id")) σ1
    = (Ok tt, [("getGeofile", [VNum 1]); ("updateGeofileAccess", [VNum 1])]).
Proof.
  intros req.
  apply (getGeofileRoute_sends_what_was_read Recorder.storage Scenario.engine req []).
  vm_compute; reflexivity.
Defined.

(** A pair of strings is accepted as a location; a triple is refused. *)
Lemma patchVehicleLocation_wants_a_pair_witness :
  let pair := Scenario.request_of [("location", VArr [VStr "east"; VStr "north"])]
                [("id", "2")] no_session in
  let triple := Scenario.request_of [("location", VArr [VNum 1; VNum 2; VNum 3])]
                  [("id", "2")] no_session in
  (patchVehicleLocation Recorder.storage Scenario.engine pair []).1
  = Reply 200 (VObj {[ "location" := VArr [VStr "east"; VStr "north"] ]}) ∧
  ∃ m, patchVehicleLocation Recorder.storage Scenario.engine triple [] = (Reply 400 (message m), []).
Proof.
  intros pair triple. split.
  - rewrite (proj1 (patchVehicleLocation_wants_a_pair Recorder.storage Scenario.engine pair [])
               (VStr "east") (VStr "north")).
    + vm_compute; reflexivity.
    + vm_compute; reflexivity.
  - apply (proj2 (patchVehicleLocation_wants_a_pair Recorder.storage Scenario.engine triple [])).
    intros x y. vm_compute. discriminate.
Defined.

(** ** OB entries *)

Section ObEntryRoutes.
Context {St : Type} (storage : Storage St) (schema : Schemas) (env : Env).

Lemma fromCreatedAt_date (f : Z → string) (e : doc) :
  createdAt_is_date e = true → ∃ v, fromCreatedAt env f (prop e "createdAt") = Ok v.
Proof.
  unfold createdAt_is_date, fromCreatedAt.
  destruct (prop e "createdAt"); simpl; intros H; try discriminate; eauto.
Qed.

Lemma optional_toISOString_date (e : doc) :
  createdAt_is_date e = true → truthy (prop e "dateTime") = false →
  ∃ v, (match optional_toISOString env (prop e "createdAt") with
        | Ok iso => Ok (js_or iso (VStr (toISOString env (now env))))
        | Throw err => Throw err
        end) = Ok v.
Proof.
  unfold createdAt_is_date, optional_toISOString.
  destruct (prop e "createdAt"); simpl; intros H _; try discriminate; eauto.
Qed.

Lemma transformEntry_date (draw : nat) (entry : mongoDoc) :
  createdAt_is_date (fields entry) = true → ∃ t, transformEntry env draw entry = Ok t.
Proof.
  intros Hdate. unfold transformEntry.
  destruct (fromCreatedAt_date (isoDate env) _ Hdate) as [d Hd].
  destruct (fromCreatedAt_date (clockTime env) _ Hdate) as [c Hc].
  rewrite Hd, Hc.
  destruct (truthy (prop (fields entry) "dateTime")) eqn:Hdt.
  - destruct (truthy (prop (fields entry) "date")), (truthy (prop (fields entry) "time"));
      eauto.
  - destruct (optional_toISOString_date _ Hdate Hdt) as [v Hv]. rewrite Hv.
    destruct (truthy (prop (fields entry) "date")), (truthy (prop (fields entry) "time"));
      eauto.
Qed.

Lemma transformEntries_date (draw : nat) (entries : list mongoDoc) :
  Forall (fun entry => createdAt_is_date (fields entry) = true) entries →
  ∃ ts, transformEntries env draw entries = Ok ts.
Proof.
  intros Hall. revert draw. induction Hall as [|entry entries Hentry _ IH]; intros draw.
  - exists []. reflexivity.
  - simpl. destruct (transformEntry_date draw entry Hentry) as [t ->].
    destruct (IH (S draw)) as [ts ->]. eauto.
Qed.

(** X16. When the store answers and every stored entry has a [Date] (or
    nothing) as [createdAt], GET /api/ob-entries answers 200 with one
    transformed entry per stored entry. *)
Theorem getObEntries_lists_every_entry
    (req : request) (σ σ' : St) (entries : list mongoDoc) :
  obFindAll storage σ = (Ok entries, σ') →
  Forall (fun entry => createdAt_is_date (fields entry) = true) entries →
  ∃ ts,
    getObEntries storage env req σ
    = (Reply 200 (VObj {[ "obEntries" := VArr (map VObj ts) ]}), σ') ∧
    length ts = length entries.
Proof.
  intros Hall Hdates. destruct (transformEntries_date 0 entries Hdates) as [ts Hts].
  exists ts. split.
  - unfold getObEntries. unfold_handler. rewrite Hall, Hts. reflexivity.
  - apply (transformEntries_lookup env 0 entries ts Hts).
Qed.

Lemma transformEntry_not_a_date (draw : nat) (entry : mongoDoc) :
  truthy (prop (fields entry) "createdAt") = true →
  (∀ ms, prop (fields entry) "createdAt" ≠ VDate ms) →
  truthy (prop (fields entry) "date") = false →
  ∃ err, transformEntry env draw entry = Throw err.
Proof.
  intros Htruthy Hdate Hmissing. unfold transformEntry. rewrite Hmissing.
  assert (Hthrow : fromCreatedAt env (isoDate env) (prop (fields entry) "createdAt")
                   = Throw "not a Date").
  { unfold fromCreatedAt. rewrite Htruthy.
    destruct (prop (fields entry) "createdAt"); try reflexivity.
    exfalso. eapply Hdate. reflexivity. }
  rewrite Hthrow.
  destruct (if truthy (prop (fields entry) "dateTime") then _ else _); eauto.
Qed.

Lemma transformEntries_not_a_date (draw : nat) (entries : list mongoDoc) (entry : mongoDoc) :
  In entry entries →
  truthy (prop (fields entry) "createdAt") = true →
  (∀ ms, prop (fields entry) "createdAt" ≠ VDate ms) →
  truthy (prop (fields entry) "date") = false →
  ∃ err, transformEntries env draw entries = Throw err.
Proof.
  intros Hin Htruthy Hdate Hmissing. revert draw.
  induction entries as [|e0 entries IH]; intros draw; [contradiction |].
  simpl. destruct (transformEntry env draw e0) as [t|err] eqn:H0; [| eauto].
  destruct Hin as [-> | Hin].
  - destruct (transformEntry_not_a_date draw entry Htruthy Hdate Hmissing) as [err Herr].
    congruence.
  - destruct (IH Hin (S draw)) as [err ->]. eauto.
Qed.

(** X17. One stored entry whose [createdAt] is a truthy value other than a
    [Date] and whose [date] is missing makes the whole listing fail: GET
    /api/ob-entries answers 500 and sends no entry at all. *)
Theorem getObEntries_fails_on_one_entry
    (req : request) (σ σ' : St) (entries : list mongoDoc) (entry : mongoDoc) :
  obFindAll storage σ = (Ok entries, σ') →
  In entry entries →
  truthy (prop (fields entry) "createdAt") = true →
  (∀ ms, prop (fields entry) "createdAt" ≠ VDate ms) →
  truthy (prop (fields entry) "date") = false →
  getObEntries storage env req σ = (Reply 500 (message "Failed to fetch OB entries"), σ').
Proof.
  intros Hall Hin Htruthy Hdate Hmissing.
  destruct (transformEntries_not_a_date 0 entries entry Hin Htruthy Hdate Hmissing)
    as [err Herr].
  unfold getObEntries. unfold_handler. rewrite Hall, Herr. reflexivity.
Qed.

Lemma js_or_truthy (a b : jsval) : truthy a = true → js_or a b = a.
Proof. intros H. unfold js_or. rewrite H. reflexivity. Qed.


(** X19. The entry POST /api/ob-entries hands to the store always has
    [recordingOfficerId] 1, whatever was submitted; a truthy submitted
    [obNumber], [dateTime], [date], [time] or [status] is kept, and every
    other submitted property is passed on unchanged. *)
Theorem entryToCreate_overrides_the_officer_id (obData : doc) (k : string) :
  entryToCreate env obData !! "recordingOfficerId" = Some (VNum 1) ∧
  (k ∉ created_entry_keys → entryToCreate env obData !! k = obData !! k) ∧
  (k ∈ ["obNumber"; "dateTime"; "date"; "time"; "status"] →
   truthy (prop obData k) = true → entryToCreate env obData !! k = Some (prop obData k)).
Proof.
  unfold entryToCreate, set_prop. split; [apply lookup_insert_eq |]. split.
  - unfold created_entry_keys. intros Hk. rewrite !not_elem_of_cons in Hk.
    destruct Hk as (? & ? & ? & ? & ? & ? & _).
    rewrite !lookup_insert_ne by congruence. reflexivity.
  - intros Hk Htruthy. rewrite !elem_of_cons in Hk.
    repeat (destruct Hk as [-> | Hk];
            [rewrite ?lookup_insert_ne by discriminate; rewrite lookup_insert_eq;
             rewrite (js_or_truthy _ _ Htruthy); reflexivity |]).
    inversion Hk.
Qed.
End ObEntryRoutes.

(** The two stored entries are listed. *)
Lemma getObEntries_lists_every_entry_witness :
  let req := Scenario.request_of [] [] no_session in
  ∃ ts,
    getObEntries SpecStore.storage SpecStore.env req Fixture.with_entries
    = (Reply 200 (VObj {[ "obEntries" := VArr (map VObj ts) ]}), Fixture.with_entries) ∧
    length ts = length [Fixture.legacy_entry; Fixture.dated_entry].
Proof.
  intros req.
  apply (getObEntries_lists_every_entry SpecStore.storage SpecStore.env req
           Fixture.with_entries Fixture.with_entries).
  - reflexivity.
  - repeat constructor.
Defined.

(** The imported entry, between the two others, fails the listing. *)
Lemma getObEntries_fails_on_one_entry_witness :
  let req := Scenario.request_of [] [] no_session in
  getObEntries SpecStore.storage SpecStore.env req Fixture.with_imported
  = (Reply 500 (message "Failed to fetch OB entries"), Fixture.with_imported).
Proof.
  intros req.
  apply (getObEntries_fails_on_one_entry SpecStore.storage SpecStore.env req
           Fixture.with_imported Fixture.with_imported
           [Fixture.legacy_entry; Fixture.imported_entry; Fixture.dated_entry]
           Fixture.imported_entry).
  - reflexivity.
  - simpl. tauto.
  - vm_compute; reflexivity.
  - intros ms. vm_compute. discriminate.
  - vm_compute; reflexivity.
Defined.


(** A client submits its own [recordingOfficerId] and a witness name. *)
Lemma entryToCreate_overrides_the_officer_id_witness :
  let obData : doc :=
    <["recordingOfficerId" := VNum 42]>
      (<["witness" := VStr "J. Doe"]> {[ "status" := VStr "Approved" ]}) in
  entryToCreate SpecStore.env obData !! "recordingOfficerId" = Some (VNum 1) ∧
  entryToCreate SpecStore.env obData !! "witness" = obData !! "witness" ∧
  entryToCreate SpecStore.env obData !! "status" = Some (prop obData "status").
Proof.
  intros obData. split; [| split].
  - apply (proj1 (entryToCreate_overrides_the_officer_id SpecStore.env obData "status")).
  - apply (proj1 (proj2 (entryToCreate_overrides_the_officer_id SpecStore.env obData
                           "witness"))).
    unfold created_entry_keys. rewrite !not_elem_of_cons.
    repeat split; try discriminate. apply not_elem_of_nil.
  - apply (proj2 (proj2 (entryToCreate_overrides_the_officer_id SpecStore.env obData
                           "status"))).
    + rewrite !elem_of_cons. tauto.
    + vm_compute; reflexivity.
Defined.

(** * The reports page and the routes it calls *)

(** ** Identifiers in request paths *)

Lemma read_digits_decimal (acc : Z) (d : Decimal.uint) :
  read_digits 10 (Some acc) (NilEmpty.string_of_uint d) = Some (uint_value acc d).
Proof.
  revert acc. induction d; intros acc; simpl NilEmpty.string_of_uint; [reflexivity | ..];
    cbn [read_digits]; (change (digit_of 10 _) with (Some 0)
                        || change (digit_of 10 _) with (Some 1)
                        || change (digit_of 10 _) with (Some 2)
                        || change (digit_of 10 _) with (Some 3)
                        || change (digit_of 10 _) with (Some 4)
                        || change (digit_of 10 _) with (Some 5)
                        || change (digit_of 10 _) with (Some 6)
                        || change (digit_of 10 _) with (Some 7)
                        || change (digit_of 10 _) with (Some 8)
                        || change (digit_of 10 _) with (Some 9));
    cbv iota beta; apply IHd.
Qed.

Lemma of_uint_acc_value (d : Decimal.uint) (acc : positive) :
  Z.pos (Pos.of_uint_acc d acc) = uint_value (Z.pos acc) d.
Proof.
  revert acc. induction d; intros acc; simpl; [reflexivity | ..];
    rewrite IHd; f_equal; lia.
Qed.

Lemma of_uint_value (d : Decimal.uint) : Z.of_uint d = uint_value 0 d.
Proof.
  unfold Z.of_uint. induction d; simpl; try reflexivity; try exact IHd;
    rewrite of_uint_acc_value; reflexivity.
Qed.

Lemma skip_spaces_ascii (a : ascii) (r : string) :
  is_space a = false → is_ascii_char a = true → skip_spaces (String a r) = String a r.
Proof.
  intros Hs Ha. cbn [skip_spaces]. rewrite Hs.
  unfold is_ascii_char in Ha. apply Nat.ltb_lt in Ha.
  assert (H2 : ∀ b, is_space2 a b = false).
  { intros b. unfold is_space2.
    destruct (Nat.eqb_spec (nat_of_ascii a) 194); [lia | reflexivity]. }
  assert (H3 : ∀ b c, is_space3 a b c = false).
  { intros b c. unfold is_space3. cbv zeta.
    repeat match goal with
           | |- context [(nat_of_ascii a =? ?k)%nat] =>
               destruct (Nat.eqb_spec (nat_of_ascii a) k); [lia |]
           end.
    reflexivity. }
  destruct r as [|b [|c r2]]; rewrite ?H2, ?H3; reflexivity.
Qed.

Lemma parseInt_digits (engine : Engine) (d : Decimal.uint) :
  d ≠ Decimal.Nil →
  parseInt engine (NilEmpty.string_of_uint d) = number engine (uint_value 0 d) ∧
  parseInt engine (String "-" (NilEmpty.string_of_uint d)) = number engine (- uint_value 0 d).
Proof.
  intros Hd. destruct d as [|d|d|d|d|d|d|d|d|d|d]; [contradiction | ..].
  1: destruct d.
  all: unfold parseInt; simpl NilEmpty.string_of_uint;
    rewrite !skip_spaces_ascii by reflexivity;
    cbn [strip_hex_prefix read_digits];
    repeat match goal with
           | |- context [digit_of 10 ?c] =>
               let v := eval vm_compute in (digit_of 10 c) in
               change (digit_of 10 c) with v
           end;
    cbv iota beta; cbn [default uint_value]; rewrite ?read_digits_decimal;
    unfold id; split; f_equal; lia.
Qed.

Lemma parseInt_decimal (engine : Engine) (n : Z) :
  Z.abs n ≤ 9007199254740992 → parseInt engine (ReportsPage.decimal n) = VNum n.
Proof.
  intros Hn.
  assert (Hnum : number engine n = VNum n).
  { unfold number. destruct (Z.leb_spec (Z.abs n) 9007199254740992); [reflexivity | lia]. }
  unfold ReportsPage.decimal. destruct n as [|p|p].
  - reflexivity.
  - simpl Z.to_int. unfold NilZero.string_of_int.
    pose proof (DecimalPos.Unsigned.to_uint_nonnil p) as Hnil.
    assert (Hs : NilZero.string_of_uint (Pos.to_uint p)
                 = NilEmpty.string_of_uint (Pos.to_uint p)).
    { destruct (Pos.to_uint p); [contradiction | reflexivity ..]. }
    rewrite Hs, (proj1 (parseInt_digits engine _ Hnil)), <- of_uint_value.
    rewrite <- Hnum. f_equal. exact (DecimalZ.of_to (Z.pos p)).
  - simpl Z.to_int. unfold NilZero.string_of_int.
    pose proof (DecimalPos.Unsigned.to_uint_nonnil p) as Hnil.
    assert (Hs : NilZero.string_of_uint (Pos.to_uint p)
                 = NilEmpty.string_of_uint (Pos.to_uint p)).
    { destruct (Pos.to_uint p); [contradiction | reflexivity ..]. }
    rewrite Hs, (proj2 (parseInt_digits engine _ Hnil)), <- of_uint_value.
    rewrite <- Hnum. f_equal. exact (DecimalZ.of_to (Z.neg p)).
Qed.

(** ** The list of reports and its filter *)

Section ReportsList.
Import ReportsPage.
Context (engine : Engine).

Lemma filter_with_spec (f : jsval → result bool) (l kept : list jsval) :
  filter_with f l = Ok kept →
  sublist kept l ∧
  (∀ x, x ∈ l → ∃ b, f x = Ok b) ∧
  (∀ x, x ∈ kept ↔ x ∈ l ∧ f x = Ok true).
Proof.
  revert kept. induction l as [|x l IH]; intros kept H; simpl in H.
  - injection H as <-. split; [constructor |]. split.
    + intros x Hx. inversion Hx.
    + intros x. split; [intros Hx; inversion Hx | intros [Hx _]; inversion Hx].
  - destruct (f x) as [keep|e] eqn:Hfx; [| discriminate].
    destruct (filter_with f l) as [kept0|e] eqn:Hrest; [| discriminate].
    injection H as <-. destruct (IH kept0 eq_refl) as (Hsub & Hall & Hiff).
    split; [destruct keep; [apply sublist_skip | apply sublist_cons]; exact Hsub |].
    split.
    + intros y Hy. apply elem_of_cons in Hy as [-> | Hy]; [eauto | apply Hall, Hy].
    + intros y. destruct keep.
      * rewrite !elem_of_cons, Hiff. split.
        -- intros [-> | [Hy Hfy]]; [split; [left; reflexivity | exact Hfx] |].
           split; [right; exact Hy | exact Hfy].
        -- intros [[-> | Hy] Hfy]; [left; reflexivity | right; split; assumption].
      * rewrite elem_of_cons, Hiff. split.
        -- intros [Hy Hfy]. split; [right; exact Hy | exact Hfy].
        -- intros [[-> | Hy] Hfy]; [congruence | split; assumption].
Qed.

Lemma filter_with_throws (f : jsval → result bool) (l : list jsval) (x : jsval) (e : string) :
  x ∈ l → f x = Throw e → ∃ e', filter_with f l = Throw e'.
Proof.
  intros Hx Hfx. induction l as [|y l IH]; [inversion Hx |].
  simpl. apply elem_of_cons in Hx as [<- | Hx].
  - rewrite Hfx. eauto.
  - destruct (f y); [| eauto]. destruct (IH Hx) as [e' ->]. eauto.
Qed.

(** What it takes for a report to pass the search. *)
Lemma matchesSearch_truthy (report : jsval) (term : string) (found : jsval) :
  matchesSearch engine report term = Ok found → truthy found = true →
  ∃ k s, k ∈ ["title"; "content"; "reportNumber"] ∧
         get_prop report k = VStr s ∧
         str_includes (toLowerCase engine s) (toLowerCase engine term) = true.
Proof.
  unfold matchesSearch, member, fieldMatches. intros H Htruthy.
  assert (Hin1 : "title" ∈ ["title"; "content"; "reportNumber"])
    by (rewrite !elem_of_cons; tauto).
  assert (Hin2 : "content" ∈ ["title"; "content"; "reportNumber"])
    by (rewrite !elem_of_cons; tauto).
  assert (Hin3 : "reportNumber" ∈ ["title"; "content"; "reportNumber"])
    by (rewrite !elem_of_cons; tauto).
  destruct report; try discriminate;
    repeat match type of H with
           | context [match ?x with _ => _ end] =>
               lazymatch x with
               | context [match _ with _ => _ end] => fail
               | _ => destruct x eqn:?; try discriminate
               end
           end;
    try (injection H as <-); try discriminate; eauto.
Qed.

Lemma matchesFilter_true (choice : string) (field : jsval) :
  matchesFilter choice field = true ↔ choice = "all" ∨ field = VStr choice.
Proof.
  unfold matchesFilter. rewrite orb_true_iff, String.eqb_eq, strict_eq_str. reflexivity.
Qed.

(** Every report the filter lets through, and why. *)
Lemma filteredReports_inv (p : page) (visible : list jsval) :
  filteredReports engine p = Ok visible →
  ∃ l,
    reports p = VArr l ∧
    sublist visible l ∧
    (∀ r, r ∈ visible ↔ r ∈ l ∧ shown engine p r = Ok true) ∧
    (∀ r, r ∈ visible →
       (∃ k s, k ∈ ["title"; "content"; "reportNumber"] ∧
               get_prop r k = VStr s ∧
               str_includes (toLowerCase engine s) (toLowerCase engine (searchTerm p))
               = true) ∧
       (filterType p = "all" ∨ get_prop r "type" = VStr (filterType p)) ∧
       (filterStatus p = "all" ∨ get_prop r "status" = VStr (filterStatus p))).
Proof.
  unfold filteredReports. intros H.
  destruct (reports p) as [| | | | | | |l|] eqn:Hreports; try discriminate.
  exists l. destruct (filter_with_spec _ _ _ H) as (Hsub & _ & Hiff).
  split; [reflexivity |]. split; [exact Hsub |]. split; [exact Hiff |].
  intros r Hr. apply Hiff in Hr as [_ Hshown]. unfold shown in Hshown.
  destruct (matchesSearch engine r (searchTerm p)) as [found|e] eqn:Hsearch; [| discriminate].
  injection Hshown as Hshown.
  apply andb_true_iff in Hshown as [Hshown Hstatus].
  apply andb_true_iff in Hshown as [Hfound Htype].
  split; [exact (matchesSearch_truthy _ _ _ Hsearch Hfound) |].
  split; apply matchesFilter_true; assumption.
Qed.

(** X20. The reports the page shows are reports of its list, in the order
    of the list, and they are exactly those that pass the filter: each has
    a title, content or report number that is a string whose lower case
    contains the lower case of the search term, and each has the chosen
    type and the chosen status unless "all" is chosen. A report with none
    of the three fields is never shown. The lower case is the engine's,
    whatever the text. *)
Theorem filteredReports_shows_the_matching_reports (p : page) (visible : list jsval) :
  filteredReports engine p = Ok visible →
  ∃ l,
    reports p = VArr l ∧
    sublist visible l ∧
    (∀ r, r ∈ visible ↔ r ∈ l ∧ shown engine p r = Ok true) ∧
    (∀ r, r ∈ visible →
       (∃ k s, k ∈ ["title"; "content"; "reportNumber"] ∧
               get_prop r k = VStr s ∧
               str_includes (toLowerCase engine s) (toLowerCase engine (searchTerm p))
               = true) ∧
       (filterType p = "all" ∨ get_prop r "type" = VStr (filterType p)) ∧
       (filterStatus p = "all" ∨ get_prop r "status" = VStr (filterStatus p))).
Proof. apply filteredReports_inv. Qed.

(** A list that holds [undefined] or [null] cannot be rendered: the filter
    throws when it reads the title of that element. *)
Lemma filteredReports_throws_on_a_missing_report (p : page) (l : list jsval) (r : jsval) :
  reports p = VArr l → r ∈ l → r = VUndefined ∨ r = VNull →
  ∃ e, filteredReports engine p = Throw e.
Proof.
  intros Hreports Hin Hr. unfold filteredReports. rewrite Hreports.
  apply (filter_with_throws _ _ r "Cannot read properties of undefined"); [exact Hin |].
  destruct Hr as [-> | ->]; reflexivity.
Qed.

Lemma prefix_lower_ascii (t s : string) :
  String.prefix t s = true →
  String.prefix (lower_ascii_string t) (lower_ascii_string s) = true.
Proof.
  revert t. induction s as [|b s IH]; intros [|a t]; simpl; try reflexivity;
    try discriminate.
  destruct (ascii_dec a b) as [-> | Hne]; [| discriminate].
  intros H. destruct (ascii_dec (lower_ascii b) (lower_ascii b)); [| contradiction].
  apply IH, H.
Qed.

Lemma str_includes_lower_ascii (s t : string) :
  str_includes s t = true →
  str_includes (lower_ascii_string s) (lower_ascii_string t) = true.
Proof.
  induction s as [|b s IH]; simpl; rewrite !orb_true_iff.
  - intros [H | H]; [left | discriminate]. destruct t; [reflexivity | discriminate].
  - intros [H | H]; [left | right; apply IH, H].
    apply (prefix_lower_ascii t (String b s)), H.
Qed.

Lemma str_includes_empty (s : string) : str_includes s "" = true.
Proof. destruct s; reflexivity. Qed.

(** X21. On ASCII text the search ignores case: a report whose title is
    ASCII text containing the ASCII text typed, in whatever case either is
    written, passes the search, and is shown when it has the chosen type
    and status. *)
Theorem search_ignores_case (p : page) (r : doc) (title typed : string) :
  prop r "title" = VStr title →
  is_ascii title = true →
  is_ascii typed = true →
  str_includes title typed = true →
  toLowerCase engine (searchTerm p) = toLowerCase engine typed →
  shown engine p (VObj r)
  = Ok (matchesFilter (filterType p) (prop r "type")
        && matchesFilter (filterStatus p) (prop r "status")).
Proof.
  intros Htitle Hascii Htyped Hincl Hterm.
  unfold shown, matchesSearch, member, fieldMatches. simpl.
  rewrite Htitle, Hterm.
  rewrite (toLowerCase_ascii engine title Hascii), (toLowerCase_ascii engine typed Htyped).
  rewrite (str_includes_lower_ascii _ _ Hincl). reflexivity.
Qed.

(** X22. With the search box empty and both filters on "all", as the page
    starts, a report is shown exactly when its title, content or report
    number is a string; a report that has none of them stays hidden. *)
Theorem default_view_shows_reports_with_text (p : page) (l visible : list jsval) (r : jsval) :
  searchTerm p = "" → filterType p = "all" → filterStatus p = "all" →
  reports p = VArr l →
  filteredReports engine p = Ok visible →
  (r ∈ visible ↔
   r ∈ l ∧ ∃ k s, k ∈ ["title"; "content"; "reportNumber"] ∧ get_prop r k = VStr s).
Proof.
  intros Hterm Htype Hstatus Hreports H.
  destruct (filteredReports_inv p visible H) as (l0 & Hl0 & _ & Hiff & Hsound).
  rewrite Hreports in Hl0. injection Hl0 as <-.
  split.
  - intros Hr. split; [apply Hiff, Hr |].
    destruct (Hsound r Hr) as ((k & s & Hk & Hget & _) & _). eauto.
  - intros [Hin (k & s & Hk & Hget)]. apply Hiff. split; [exact Hin |].
    unfold filteredReports in H. rewrite Hreports in H.
    destruct (filter_with_spec _ _ _ H) as (_ & Hall & _).
    destruct (Hall r Hin) as [b Hb]. rewrite Hb. f_equal.
    unfold shown in Hb. rewrite Hterm, Htype, Hstatus in Hb.
    unfold matchesFilter in Hb. simpl in Hb.
    destruct (matchesSearch engine r "") as [found|e] eqn:Hsearch; [| discriminate].
    injection Hb as <-. rewrite !andb_true_r.
    unfold matchesSearch, member, fieldMatches in Hsearch.
    change (toLowerCase engine "") with "" in Hsearch.
    rewrite !elem_of_cons in Hk.
    destruct r; try discriminate; simpl in *;
      try (destruct Hk as [-> | [-> | [-> | Hk]]]; discriminate).
    destruct (prop o "title") eqn:Ht; try discriminate; simpl in Hsearch;
      try (injection Hsearch as <-; simpl; apply str_includes_empty);
      destruct (prop o "content") eqn:Hc; try discriminate; simpl in Hsearch;
      try (rewrite str_includes_empty in Hsearch; injection Hsearch as <-; reflexivity);
      destruct (prop o "reportNumber") eqn:Hn; try discriminate;
      try (injection Hsearch as <-; simpl; apply str_includes_empty);
      destruct Hk as [-> | [-> | [-> | Hk]]]; try congruence; inversion Hk.
Qed.
End ReportsList.

(** ** The page and the server *)

Section PageAndServer.
Import ReportsPage.
Context {St : Type} (storage : Storage St) (schema : Schemas) (engine : Engine).
Context (iso : Z → string).

Lemma map_with_spec (f : jsval → result jsval) (g : jsval → jsval) (l : list jsval) :
  (∀ x, x ∈ l → f x = Ok (g x)) → map_with f l = Ok (map g l).
Proof.
  induction l as [|x l IH]; intros H; [reflexivity |].
  simpl. rewrite (H x) by (left; reflexivity).
  rewrite IH; [reflexivity |]. intros y Hy. apply H. right. exact Hy.
Qed.

(** An object arrives as the object of the JSON forms of its properties. *)
Lemma answeredJson_success (failure t : string) (s : Z) (body : doc) :
  200 ≤ s ≤ 299 →
  answeredJson failure (Ok (response_to iso t s (VObj body)))
  = Ok (VObj (omap (toJSON iso) body)).
Proof.
  intros Hs. unfold answeredJson, answered, ok, response_to. cbn [status json toJSON].
  replace ((200 <=? s) && (s <=? 299)) with true; [reflexivity |].
  symmetry. apply andb_true_iff. split; apply Z.leb_le; lia.
Qed.

Lemma arrived_without (body : doc) (k : string) :
  body !! k = None → get_prop (VObj (omap (toJSON iso) body)) k = VUndefined.
Proof.
  intros H. unfold get_prop, prop. rewrite lookup_omap, H. reflexivity.
Qed.

(** X23. The page sends its form to POST /api/reports and prepends
    [data.report] to its list; the server answers 201 with the created
    report itself, which has no [report] property. So the list gets
    [undefined] in front, and the next rendering throws. *)
Theorem created_report_is_prepended_as_undefined
    (req : request) (σ σ' : St) (created : doc) (p : page) (l : list jsval)
    (statusText : string) :
  req_body req = VObj (formData p) →
  postReport storage schema req σ = (Reply 201 (VObj created), σ') →
  created !! "report" = None →
  truthy (editingReport p) = false →
  reports p = VArr l →
  (∃ reportData,
     insertReportSchema schema (VObj (formData p)) = Ok reportData ∧
     createReport storage (reportToCreate reportData) σ = (Ok (VObj created), σ')) ∧
  ∃ p',
    handleSubmit (Ok (response_to iso statusText 201 (VObj created))) p = Ok p' ∧
    reports p' = VArr (VUndefined :: l) ∧
    ∃ e, filteredReports engine p' = Throw e.
Proof.
  intros Hbody Hpost Hnone Hnew Hreports. split.
  - unfold postReport in Hpost. unfold_handler. rewrite Hbody in Hpost.
    destruct (insertReportSchema schema (VObj (formData p))) as [d|e] eqn:Hparse;
      [| discriminate].
    exists d. split; [reflexivity |].
    destruct (createReport storage (reportToCreate d) σ) as [[c|e] σ1] eqn:Hcreate;
      [| discriminate].
    injection Hpost as <- <-. reflexivity.
  - unfold handleSubmit. rewrite Hnew, answeredJson_success by lia.
    unfold prepended, member. rewrite (arrived_without _ _ Hnone), Hreports.
    eexists. split; [reflexivity |]. split; [reflexivity |].
    apply (filteredReports_throws_on_a_missing_report engine _ (VUndefined :: l) VUndefined);
      [reflexivity | left | left; reflexivity].
Qed.

(** X24. The same happens on an update: the server answers PUT
    /api/reports/:id with the updated report itself, so the page replaces
    the edited report of its list by [undefined], leaves the other reports
    as they are, and the next rendering throws. *)
Theorem updated_report_is_replaced_by_undefined
    (req : request) (σ σ' : St) (edited updated : doc) (n : Z) (p : page) (l : list jsval)
    (statusText : string) :
  putReport storage schema engine req σ = (Reply 200 (VObj updated), σ') →
  updated !! "report" = None →
  editingReport p = VObj edited →
  prop edited "id" = VNum n →
  reports p = VArr l →
  VObj edited ∈ l →
  Forall (fun r => r ≠ VUndefined ∧ r ≠ VNull) l →
  (∃ reportData,
     insertReportSchema schema (req_body req) = Ok reportData ∧
     updateReport storage (parseInt engine (param req "id")) reportData σ
     = (Ok (VObj updated), σ')) ∧
  ∃ p',
    handleSubmit (Ok (response_to iso statusText 200 (VObj updated))) p = Ok p' ∧
    reports p'
    = VArr (map (fun r => if strict_eq (get_prop r "id") (VNum n) then VUndefined else r) l) ∧
    ∃ e, filteredReports engine p' = Throw e.
Proof.
  intros Hput Hnone Hediting Hid Hreports Hin Hok. split.
  - unfold putReport in Hput. unfold_handler.
    destruct (insertReportSchema schema (req_body req)) as [d|e] eqn:Hparse;
      [| discriminate].
    exists d. split; [reflexivity |].
    destruct (updateReport storage (parseInt engine (param req "id")) d σ) as [[c|e] σ1];
      [| discriminate].
    injection Hput as <- <-. reflexivity.
  - unfold handleSubmit. rewrite Hediting, answeredJson_success by lia. cbn [truthy].
    unfold replaced. rewrite Hreports. cbn [get_prop]. rewrite Hid.
    rewrite (map_with_spec _ (fun r => if strict_eq (get_prop r "id") (VNum n)
                                        then VUndefined else r)).
    + eexists. split; [reflexivity |]. split; [reflexivity |].
      eapply (filteredReports_throws_on_a_missing_report engine _ _ VUndefined);
        [reflexivity | | left; reflexivity].
      apply list_elem_of_In, in_map_iff. exists (VObj edited). split.
      * cbn [get_prop]. rewrite Hid. simpl. rewrite Z.eqb_refl. reflexivity.
      * apply list_elem_of_In. exact Hin.
    + intros x Hx. rewrite Forall_forall in Hok. destruct (Hok x Hx) as [Hu Hn].
      pose proof (arrived_without _ _ Hnone) as Hgone. cbn [get_prop] in Hgone.
      unfold member. destruct x; try contradiction; cbn [get_prop];
        match goal with
        | |- context [if ?c then _ else _] => destruct c
        end; try reflexivity;
        rewrite Hgone; reflexivity.
Qed.

End PageAndServer.

Section PageRequests.
Import ReportsPage.

(** X26. The page and GET /api/reports agree up to the JSON form: when the
    store returns the reports, the server answers 200 with them under
    [reports] and the page takes their JSON form (an empty list when that
    is falsy or when the store returned [undefined]), keeping its error;
    for a list, this is the list of the JSON forms of its elements, in
    which a [Date] has become text. When the store throws, the server
    answers 500 and the page keeps its list and shows the status. *)
Theorem fetchReports_takes_what_the_store_returns
    {St : Type} (storage : GeoStorage St) (iso : Z → string) (req : request) (σ : St)
    (p : page) (statusText : string) :
  match getReports storage σ with
  | (Ok stored, σ') =>
      listReports storage req σ = (Reply 200 (VObj {[ "reports" := stored ]}), σ') ∧
      fetchReports (Ok (response_to iso statusText 200 (VObj {[ "reports" := stored ]}))) p
      = set_loading false
          (set_reports (js_or (default VUndefined (toJSON iso stored)) (VArr [])) p) ∧
      ∀ l, stored = VArr l →
           reports (fetchReports
                      (Ok (response_to iso statusText 200 (VObj {[ "reports" := stored ]}))) p)
           = VArr (map (fun r => default VNull (toJSON iso r)) l)
  | (Throw _, σ') =>
      listReports storage req σ = (Reply 500 (message "Failed to fetch reports"), σ') ∧
      fetchReports (Ok (response_to iso statusText 500 (message "Failed to fetch reports"))) p
      = set_loading false
          (set_error
             (VStr ("Failed to fetch reports: HTTP error! status: 500 - " ++ statusText)) p)
  end.
Proof.
  unfold listReports. unfold_handler.
  destruct (getReports storage σ) as [[stored|e] σ']; [| split; reflexivity].
  assert (Hfetch :
    fetchReports (Ok (response_to iso statusText 200 (VObj {[ "reports" := stored ]}))) p
    = set_loading false
        (set_reports (js_or (default VUndefined (toJSON iso stored)) (VArr [])) p)).
  { unfold fetchReports, fetched, response_to, ok, member.
    cbn [status contentType json text toJSON negb truthy].
    change (str_includes "application/json; charset=utf-8" "application/json") with true.
    cbn [negb orb andb Z.leb Z.compare Pos.compare Pos.compare_cont].
    unfold get_prop, prop. rewrite lookup_omap, lookup_singleton_eq. cbn [mbind option_bind].
    reflexivity. }
  split; [reflexivity |]. split; [exact Hfetch |].
  intros l ->. rewrite Hfetch. reflexivity.
Qed.

Lemma formOf_lookup (report : jsval) (k : string) :
  k ∈ formFields →
  ∃ d, emptyForm !! k = Some (VStr d) ∧
       formOf report !! k = Some (js_or (get_prop report k) (VStr d)).
Proof.
  unfold formFields. intros Hk. rewrite !elem_of_cons in Hk.
  unfold formOf, list_to_map. simpl foldr.
  repeat (destruct Hk as [-> | Hk];
          [eexists; split; [reflexivity |];
           rewrite ?lookup_insert_ne by discriminate; apply lookup_insert_eq |]).
  inversion Hk.
Qed.

(** X27. Opening a report for editing fills the form with eight fields and
    no other: each is the report's value when that is truthy and the
    form's default otherwise, so it is never [undefined] or [null]; the
    request then sent is a PUT of exactly this form. *)
Theorem handleEdit_fills_the_eight_fields
    (dateText : Z → string) (report : doc) (p : page) (k : string) :
  ∃ p',
    handleEdit (VObj report) p = Ok p' ∧
    (submitRequest dateText p').2 = VObj (formData p') ∧
    (submitRequest dateText p').1.1 = "PUT" ∧
    (k ∉ formFields → formData p' !! k = None) ∧
    (k ∈ formFields →
     ∃ v, formData p' !! k = Some v ∧ v ≠ VUndefined ∧ v ≠ VNull ∧
          (truthy (prop report k) = true → v = prop report k) ∧
          (truthy (prop report k) = false → Some v = emptyForm !! k)).
Proof.
  eexists. split; [reflexivity |].
  split; [reflexivity |]. split; [reflexivity |].
  cbn [formData set_form]. split.
  - unfold formOf, formFields, list_to_map. simpl foldr.
    intros Hk. rewrite !not_elem_of_cons in Hk.
    destruct Hk as (? & ? & ? & ? & ? & ? & ? & ? & _).
    rewrite !lookup_insert_ne by congruence. apply lookup_empty.
  - intros Hk. destruct (formOf_lookup (VObj report) k Hk) as (d & Hd & Hform).
    rewrite Hform, Hd. cbn [get_prop]. unfold js_or.
    destruct (truthy (prop report k)) eqn:Ht.
    + exists (prop report k). split; [reflexivity |].
      split; [intros E; rewrite E in Ht; discriminate |].
      split; [intros E; rewrite E in Ht; discriminate |].
      split; [reflexivity | discriminate].
    + exists (VStr d). split; [reflexivity |].
      split; [discriminate |]. split; [discriminate |].
      split; [discriminate | reflexivity].
Qed.

(** X28. The identifier survives the trip through the path: for a report
    whose [id] is a (safe) integer, the page requests [/api/reports/<id>]
    written in decimal, and the server's [parseInt] of that segment is the
    identifier again. *)
Theorem edited_report_is_addressed_by_its_id
    (engine : Engine) (dateText : Z → string) (report : doc) (n : Z) (p : page) :
  prop report "id" = VNum n →
  Z.abs n ≤ 9007199254740991 →
  ∃ p' segment,
    handleEdit (VObj report) p = Ok p' ∧
    (submitRequest dateText p').1 = ("PUT", "/api/reports/" ++ segment) ∧
    parseInt engine segment = VNum n.
Proof.
  intros Hid Hn. eexists. exists (decimal n). split; [reflexivity |].
  split; [| apply parseInt_decimal; lia].
  unfold submitRequest. cbn [editingReport set_form truthy get_prop].
  rewrite Hid. reflexivity.
Qed.
End PageRequests.

(** ** The page on three reports *)

Lemma filteredReports_shows_the_matching_reports_witness :
  ∃ l,
    ReportsPage.reports PageFixture.searching = VArr l ∧
    sublist [VObj PageFixture.burglary] l ∧
    (∀ r, r ∈ [VObj PageFixture.burglary]
          ↔ r ∈ l ∧ ReportsPage.shown Scenario.engine PageFixture.searching r = Ok true) ∧
    (∀ r, r ∈ [VObj PageFixture.burglary] →
       (∃ k s, k ∈ ["title"; "content"; "reportNumber"] ∧
               get_prop r k = VStr s ∧
               ReportsPage.str_includes (toLowerCase Scenario.engine s)
                 (toLowerCase Scenario.engine
                    (ReportsPage.searchTerm PageFixture.searching)) = true) ∧
       (ReportsPage.filterType PageFixture.searching = "all"
        ∨ get_prop r "type" = VStr (ReportsPage.filterType PageFixture.searching)) ∧
       (ReportsPage.filterStatus PageFixture.searching = "all"
        ∨ get_prop r "status" = VStr (ReportsPage.filterStatus PageFixture.searching))).
Proof.
  apply (filteredReports_shows_the_matching_reports Scenario.engine PageFixture.searching).
  vm_compute; reflexivity.
Defined.

Lemma filteredReports_throws_on_a_missing_report_witness :
  ∃ e, ReportsPage.filteredReports Scenario.engine
         (ReportsPage.set_reports (VArr (VUndefined :: PageFixture.three))
            PageFixture.loaded) = Throw e.
Proof.
  apply (filteredReports_throws_on_a_missing_report Scenario.engine _
           (VUndefined :: PageFixture.three) VUndefined).
  - reflexivity.
  - left.
  - left; reflexivity.
Defined.

Lemma search_ignores_case_witness :
  ReportsPage.shown Scenario.engine PageFixture.searching (VObj PageFixture.burglary)
  = Ok true.
Proof.
  rewrite (search_ignores_case Scenario.engine PageFixture.searching PageFixture.burglary
             "Burglary on Main Street" "Burglary").
  - vm_compute; reflexivity.
  - vm_compute; reflexivity.
  - vm_compute; reflexivity.
  - vm_compute; reflexivity.
  - vm_compute; reflexivity.
  - vm_compute; reflexivity.
Defined.

Lemma default_view_shows_reports_with_text_witness :
  VObj PageFixture.summary ∈ [VObj PageFixture.burglary; VObj PageFixture.summary] ∧
  VObj PageFixture.blank ∉ [VObj PageFixture.burglary; VObj PageFixture.summary].
Proof.
  pose proof (default_view_shows_reports_with_text Scenario.engine PageFixture.loaded
                PageFixture.three
                [VObj PageFixture.burglary; VObj PageFixture.summary]) as H.
  split.
  - apply (H (VObj PageFixture.summary)); try (vm_compute; reflexivity).
    split; [right; left |].
    exists "title", "Weekly summary". split; [left | vm_compute; reflexivity].
  - intros Hin.
    apply (H (VObj PageFixture.blank)) in Hin; try (vm_compute; reflexivity).
    destruct Hin as [_ (k & s & Hk & Hget)].
    rewrite !elem_of_cons in Hk.
    destruct Hk as [-> | [-> | [-> | Hk]]]; [| | | inversion Hk];
      vm_compute in Hget; discriminate.
Defined.

(** A report is created from the filled form. *)
Lemma created_report_is_prepended_as_undefined_witness :
  ∃ p',
    ReportsPage.handleSubmit
      (Ok (ReportsPage.response_to (toISOString SpecStore.env) "Created" 201
             (VObj PageFixture.created)))
      PageFixture.filled = Ok p' ∧
    ReportsPage.reports p' = VArr (VUndefined :: PageFixture.three) ∧
    ∃ e, ReportsPage.filteredReports Scenario.engine p' = Throw e.
Proof.
  apply (created_report_is_prepended_as_undefined SpecStore.storage SpecStore.schemas
           Scenario.engine (toISOString SpecStore.env)
           PageFixture.post_request Scenario.seeded
           (postReport SpecStore.storage SpecStore.schemas PageFixture.post_request
              Scenario.seeded).2
           PageFixture.created PageFixture.filled PageFixture.three "Created").
  - reflexivity.
  - vm_compute; reflexivity.
  - vm_compute; reflexivity.
  - reflexivity.
  - reflexivity.
Defined.

(** The summary is edited and saved. *)
Lemma updated_report_is_replaced_by_undefined_witness :
  ∃ p',
    ReportsPage.handleSubmit
      (Ok (ReportsPage.response_to (toISOString SpecStore.env) "OK" 200
             (VObj PageFixture.updated)))
      PageFixture.editing = Ok p' ∧
    ReportsPage.reports p'
    = VArr (map (fun r => if strict_eq (get_prop r "id") (VNum 2) then VUndefined else r)
              PageFixture.three) ∧
    ∃ e, ReportsPage.filteredReports Scenario.engine p' = Throw e.
Proof.
  apply (updated_report_is_replaced_by_undefined SpecStore.storage SpecStore.schemas
           Scenario.engine (toISOString SpecStore.env)
           PageFixture.put_request (SpecStore.at_time 2000 Scenario.with_report)
           (putReport SpecStore.storage SpecStore.schemas Scenario.engine
              PageFixture.put_request
              (SpecStore.at_time 2000 Scenario.with_report)).2
           PageFixture.summary PageFixture.updated 2 PageFixture.editing PageFixture.three
           "OK").
  - vm_compute; reflexivity.
  - vm_compute; reflexivity.
  - reflexivity.
  - vm_compute; reflexivity.
  - reflexivity.
  - right; left.
  - repeat constructor; discriminate.
Defined.


(** A stored report whose [createdAt] is a [Date] reaches the page with
    the date as text. *)
Example fetched_report_has_its_date_as_text :
  let stored := VArr [VObj (SpecStore.stored_form 2 1000 {[ "title" := VStr "Weekly" ]})] in
  match ReportsPage.reports
          (ReportsPage.fetchReports
             (Ok (ReportsPage.response_to (toISOString SpecStore.env) "OK" 200
                    (VObj {[ "reports" := stored ]})))
             ReportsPage.initial) with
  | VArr [report] =>
      get_prop report "createdAt" = VStr "2023-11-14T22:13:20.000Z" ∧
      get_prop report "title" = VStr "Weekly" ∧
      get_prop report "id" = VNum 2
  | _ => False
  end.
Proof. vm_compute. repeat split. Qed.

(** The summary is opened for editing: its missing priority becomes the
    default, and no identifier enters the form. *)
Lemma handleEdit_fills_the_eight_fields_witness :
  ∃ p',
    ReportsPage.handleEdit (VObj PageFixture.summary) PageFixture.loaded = Ok p' ∧
    ReportsPage.formData p' !! "id" = None ∧
    ∃ v, ReportsPage.formData p' !! "priority" = Some v ∧
         Some v = ReportsPage.emptyForm !! "priority".
Proof.
  destruct (handleEdit_fills_the_eight_fields (fun _ => "") PageFixture.summary
              PageFixture.loaded "id") as (p' & Hedit & _ & _ & Hnone & _).
  exists p'. split; [exact Hedit |]. split.
  - apply Hnone. unfold ReportsPage.formFields. rewrite !not_elem_of_cons.
    repeat split; try discriminate. apply not_elem_of_nil.
  - destruct (handleEdit_fills_the_eight_fields (fun _ => "") PageFixture.summary
                PageFixture.loaded "priority") as (p2 & Hedit2 & _ & _ & _ & Hsome).
    rewrite Hedit in Hedit2. injection Hedit2 as <-.
    destruct Hsome as (v & Hv & _ & _ & _ & Hdefault).
    + unfold ReportsPage.formFields. rewrite !elem_of_cons. tauto.
    + exists v. split; [exact Hv | apply Hdefault; vm_compute; reflexivity].
Defined.

(** The summary, report 2, is addressed as /api/reports/2. *)
Lemma edited_report_is_addressed_by_its_id_witness :
  ∃ p' segment,
    ReportsPage.handleEdit (VObj PageFixture.summary) PageFixture.loaded = Ok p' ∧
    (ReportsPage.submitRequest (fun _ => "") p').1 = ("PUT", "/api/reports/" ++ segment) ∧
    parseInt Scenario.engine segment = VNum 2.
Proof.
  apply (edited_report_is_addressed_by_its_id Scenario.engine (fun _ => "")
           PageFixture.summary 2 PageFixture.loaded).
  - vm_compute; reflexivity.
  - vm_compute. discriminate.
Defined.

(** ** The development seed *)

Section Seed.
Import SpecStore.

Lemma find_by_app_new (k : string) (v : jsval) (c : list doc) (d : doc) :
  find_by k v c = None → has k v d = true → find_by k v (c ++ [d]) = Some d.
Proof.
  unfold find_by. induction c as [|x c IH]; simpl; intros Hnone Hd.
  - rewrite Hd. reflexivity.
  - destruct (has k v x); [discriminate | apply IH; assumption].
Qed.

Lemma stored_admin_is_named_admin (id now : Z) :
  has "username" (VStr "admin") (stored_form id now adminUser) = true.
Proof.
  unfold has, prop, stored_form. rewrite !lookup_insert_ne by discriminate. reflexivity.
Qed.

(** A filter with one property finds what [find_by] finds. *)
Lemma find_matches_singleton (k : string) (v : jsval) (c : list doc) :
  List.find (matches {[ k := v ]}) c = find_by k v c.
Proof.
  unfold find_by. induction c as [|d c IH]; [reflexivity |].
  simpl. rewrite IH.
  replace (matches {[ k := v ]} d) with (has k v d); [reflexivity |].
  unfold matches. destruct (has k v d) eqn:Hd; symmetry.
  - apply bool_decide_eq_true_2. apply map_Forall_singleton. exact Hd.
  - apply bool_decide_eq_false_2. rewrite map_Forall_singleton. congruence.
Qed.

(** Whatever the user model is, [seedDevAdmin] throws nothing: an error
    of [findOne] or of [save] leaves the state that call left, and nothing
    is saved when a user was found. *)
Lemma seedDevAdmin_swallows_errors {St : Type} (User : UserModel St) (σ : St) :
  seedDevAdmin User σ
  = match findOne User {[ "username" := VStr "admin" ]} σ with
    | (Ok (Some _), σ1) => σ1
    | (Ok None, σ1) => (save User adminUser σ1).2
    | (Throw _, σ1) => σ1
    end.
Proof.
  unfold seedDevAdmin, try_catch, bind, ret.
  destruct (findOne User _ σ) as [[[u|]|e] σ1]; try reflexivity.
  destruct (save User adminUser σ1) as [[[]|e] σ2]; reflexivity.
Qed.

(** What [seedDevAdmin] does on the store of the specification. *)
Lemma seedDevAdmin_cases (σ : store) :
  seedDevAdmin userModel σ
  = match find_by "username" (VStr "admin") (users σ) with
    | Some _ => σ
    | None =>
        match find_by "email" (VStr "admin@police.gov") (users σ) with
        | Some _ => σ
        | None => (create users set_users adminUser σ).2
        end
    end.
Proof.
  unfold seedDevAdmin, try_catch, bind, ret. cbn [findOne save userModel].
  rewrite find_matches_singleton.
  destruct (find_by "username" (VStr "admin") (users σ)) as [u|] eqn:Hname; [reflexivity |].
  unfold bind, create_user, taken.
  change (prop adminUser "username") with (VStr "admin").
  change (prop adminUser "email") with (VStr "admin@police.gov").
  cbv beta iota. rewrite Hname.
  destruct (find_by "email" (VStr "admin@police.gov") (users σ)) as [u|] eqn:Hmail.
  - rewrite (bool_decide_eq_false_2 (is_Some None)) by (intros [? ?]; discriminate).
    rewrite (bool_decide_eq_true_2 (is_Some (Some u))) by eauto. reflexivity.
  - rewrite (bool_decide_eq_false_2 (is_Some None)) by (intros [? ?]; discriminate).
    reflexivity.
Qed.

(** X29. [seedDevAdmin] on the users of the specification's store. When a
    user named [admin] exists it changes nothing, whatever that user's
    password is. When none exists but the administrator's email belongs to
    another user, saving fails, the error is swallowed, and the store
    stays as it was, without a user named [admin]. Otherwise the
    administrator, with the password [admin123], is appended to the users
    and is then the user found under the name [admin]. In every case
    seeding twice is seeding once. *)
Theorem seedDevAdmin_adds_the_administrator_once (σ : store) :
  seedDevAdmin userModel (seedDevAdmin userModel σ) = seedDevAdmin userModel σ ∧
  (is_Some (find_by "username" (VStr "admin") (users σ)) → seedDevAdmin userModel σ = σ) ∧
  (find_by "username" (VStr "admin") (users σ) = None →
   is_Some (find_by "email" (VStr "admin@police.gov") (users σ)) →
   seedDevAdmin userModel σ = σ) ∧
  (find_by "username" (VStr "admin") (users σ) = None →
   find_by "email" (VStr "admin@police.gov") (users σ) = None →
   ∃ admin, users (seedDevAdmin userModel σ) = (users σ ++ [admin])%list ∧
            admin !! "password" = Some (VStr "admin123") ∧
            admin !! "role" = Some (VStr "admin") ∧
            find_by "username" (VStr "admin") (users (seedDevAdmin userModel σ))
            = Some admin).
Proof.
  assert (Hnew : find_by "username" (VStr "admin") (users σ) = None →
                 find_by "email" (VStr "admin@police.gov") (users σ) = None →
                 seedDevAdmin userModel σ = (create users set_users adminUser σ).2).
  { intros Hname Hmail. rewrite seedDevAdmin_cases, Hname, Hmail. reflexivity. }
  split; [| split; [| split]].
  - destruct (find_by "username" (VStr "admin") (users σ)) as [u|] eqn:Hname.
    + rewrite (seedDevAdmin_cases σ), Hname. rewrite seedDevAdmin_cases, Hname. reflexivity.
    + destruct (find_by "email" (VStr "admin@police.gov") (users σ)) as [u|] eqn:Hmail.
      * rewrite (seedDevAdmin_cases σ), Hname, Hmail.
        rewrite seedDevAdmin_cases, Hname, Hmail. reflexivity.
      * rewrite (Hnew eq_refl eq_refl). rewrite seedDevAdmin_cases. simpl users.
        rewrite (find_by_app_new _ _ _ _ Hname (stored_admin_is_named_admin _ _)).
        reflexivity.
  - intros [u Hu]. rewrite seedDevAdmin_cases, Hu. reflexivity.
  - intros Hname [u Hu]. rewrite seedDevAdmin_cases, Hname, Hu. reflexivity.
  - intros Hname Hmail. rewrite (Hnew Hname Hmail). simpl users.
    eexists. split; [reflexivity |].
    unfold stored_form. rewrite !lookup_insert_ne by discriminate.
    split; [reflexivity |]. split; [reflexivity |].
    apply (find_by_app_new _ _ _ _ Hname (stored_admin_is_named_admin _ _)).
Qed.
End Seed.

(** Seeding the store in which the administrator has changed the password
    leaves that password in place; seeding a store in which another user
    has the administrator's email creates no administrator; seeding the
    empty store creates the administrator. *)
Lemma seedDevAdmin_adds_the_administrator_once_witness :
  seedDevAdmin SpecStore.userModel Scenario.changed_admin = Scenario.changed_admin ∧
  seedDevAdmin SpecStore.userModel Fixture.with_mail_taken = Fixture.with_mail_taken ∧
  SpecStore.find_by "username" (VStr "admin") (SpecStore.users Fixture.with_mail_taken)
  = None ∧
  ∃ admin,
    SpecStore.users (seedDevAdmin SpecStore.userModel (SpecStore.empty 1000)) = [admin] ∧
    admin !! "password" = Some (VStr "admin123").
Proof.
  split; [| split; [| split]].
  - apply (proj1 (proj2 (seedDevAdmin_adds_the_administrator_once Scenario.changed_admin))).
    vm_compute. eauto.
  - apply (proj1 (proj2 (proj2 (seedDevAdmin_adds_the_administrator_once
                                  Fixture.with_mail_taken)))).
    + vm_compute; reflexivity.
    + vm_compute. eauto.
  - vm_compute; reflexivity.
  - destruct (proj2 (proj2 (proj2 (seedDevAdmin_adds_the_administrator_once
                                     (SpecStore.empty 1000)))) eq_refl eq_refl)
      as (admin & Husers & Hpw & _).
    exists admin. split; [exact Husers | exact Hpw].
Defined.
